(** * GitHub LICENSE (MIT) compliance verifier: model and properties

    Shallow embedding of [github-license-verifier/GitHub_MIT_License_Verifier.py].

    - Python [str] values are lists of Unicode code points ([N]); [bytes]
      values are lists of octets ([N] below 256).
    - The library routines the script calls ([str.splitlines], [str.strip],
      [str.join], [base64.b64decode], [bytes.decode]) follow CPython 3.11.
    - The environment, the [.mcp_env] file and the network are inputs,
      gathered in a [World]; what the script does to the outside (lines
      printed, requests sent) and which routines it enters is recorded in a
      trace of events.
    - Every function of the script is embedded statement by statement under
      its own name.
    - CPython compiles a file as a whole before it runs any of it.  Line 144
      does not compile, so the script as shipped runs no statement: the
      function [verify_license_compliance] and the entry point [main] are
      what the file gives once compiled, that is, the compiler's error.  The
      statements of the function are kept as [verify_license_compliance_body],
      with the statement of line 144 as a parameter. *)

From Stdlib Require Import NArith ZArith String Ascii List Lia Bool DecimalString.
From stdpp Require Import base list gmap relations.

Set Warnings "-register-all".

(** A Python [str]: the sequence of its code points. *)
Abbreviation pystr := (list N).
(** A Python [bytes] object: the sequence of its octets. *)
Abbreviation pybytes := (list N).

(** ** Character classes and [str] methods *)

Module PyStr.
Local Open Scope N_scope.

(** [str.isspace] on one code point (CPython's [_PyUnicode_IsWhitespace]). *)
Definition Py_UNICODE_ISSPACE (c : N) : bool :=
  ((9 <=? c) && (c <=? 13)) || ((28 <=? c) && (c <=? 31)) || (c =? 32)
  || (c =? 133) || (c =? 160) || (c =? 5760)
  || ((8192 <=? c) && (c <=? 8202)) || (c =? 8232) || (c =? 8233)
  || (c =? 8239) || (c =? 8287) || (c =? 12288).

(** Line boundaries of [str.splitlines] (CPython's [_PyUnicode_IsLinebreak]). *)
Definition Py_UNICODE_ISLINEBREAK (c : N) : bool :=
  ((10 <=? c) && (c <=? 13)) || ((28 <=? c) && (c <=? 30))
  || (c =? 133) || (c =? 8232) || (c =? 8233).

(** [s.lstrip()] *)
Fixpoint lstrip (s : pystr) : pystr :=
  match s with
  | [] => []
  | c :: s' => if Py_UNICODE_ISSPACE c then lstrip s' else s
  end.

(** [s.rstrip()] *)
Fixpoint rstrip (s : pystr) : pystr :=
  match s with
  | [] => []
  | c :: s' =>
      match rstrip s' with
      | [] => if Py_UNICODE_ISSPACE c then [] else [c]
      | r => c :: r
      end
  end.

(** [s.strip()]: the left end is advanced first, then the right end. *)
Definition strip (s : pystr) : pystr := rstrip (lstrip s).

(** The loop of [s.splitlines()]; [line] is the line read so far.  A
    carriage return directly followed by a line feed ends one line, and the
    end of the string ends a line only when that line is not empty. *)
Fixpoint splitlines_from (line s : pystr) : list pystr :=
  match s with
  | [] => match line with [] => [] | _ => [line] end
  | c :: rest =>
      if Py_UNICODE_ISLINEBREAK c then
        line :: match rest with
                | d :: rest' =>
                    if (c =? 13) && (d =? 10) then splitlines_from [] rest'
                    else splitlines_from [] rest
                | [] => []
                end
      else splitlines_from (line ++ [c]) rest
  end.

Definition splitlines (s : pystr) : list pystr := splitlines_from [] s.

(** [sep.join(parts)] *)
Fixpoint join (sep : pystr) (parts : list pystr) : pystr :=
  match parts with
  | [] => []
  | [p] => p
  | p :: ps => p ++ sep ++ join sep ps
  end.

(** Truth value of a [str]: not empty. *)
Definition truthy (s : pystr) : bool :=
  match s with [] => false | _ => true end.

(** [s[:n]] *)
Definition slice_to (n : nat) (s : pystr) : pystr := take n s.

(** A string made of white space only (the empty string included). *)
Definition blank (s : pystr) : bool := forallb Py_UNICODE_ISSPACE s.
End PyStr.
Import PyStr.

(** ** The normalizer (lines 123-125) *)

Definition LF : pystr := [10%N].

(** [[line.strip() for line in lines if line.strip()]] *)
Fixpoint stripped_nonblank (lines : list pystr) : list pystr :=
  match lines with
  | [] => []
  | line :: lines' =>
      if truthy (strip line) then strip line :: stripped_nonblank lines'
      else stripped_nonblank lines'
  end.

Definition clean_content (content : pystr) : pystr :=
  let lines := stripped_nonblank (splitlines content) in
  join LF lines.

(** The normalizer as the specification words it: split into lines, discard
    the lines that are empty after trimming, trim the remaining lines, rejoin
    with one newline.  A line ends at every line boundary character, so a
    text with [n] boundaries has [n + 1] lines (some possibly empty). *)
Module Spec.
Fixpoint split_into_lines (s : pystr) : list pystr :=
  match s with
  | [] => [[]]
  | c :: s' =>
      if Py_UNICODE_ISLINEBREAK c then [] :: split_into_lines s'
      else match split_into_lines s' with
           | l :: ls => (c :: l) :: ls
           | [] => [[c]]
           end
  end.

Definition empty_after_trim (line : pystr) : bool := negb (truthy (strip line)).

Definition normalize (s : pystr) : pystr :=
  let survivors := List.filter (fun l => negb (empty_after_trim l)) (split_into_lines s) in
  join LF (List.map strip survivors).
End Spec.

(** ** Whitespace edits of a text (insertion points at line edges) *)

(** The first line of [s]: the part before its first line boundary. *)
Definition head_line (s : pystr) : pystr := hd [] (Spec.split_into_lines s).

(** The last line of [s]: the part after its last line boundary. *)
Definition tail_line (s : pystr) : pystr := List.last (Spec.split_into_lines s) [].

(** Position [pre | post] is at the beginning of a line, possibly after
    indentation that is already there. *)
Definition at_line_start (pre : pystr) : bool := blank (tail_line pre).
(** Position [pre | post] is at the end of a line, possibly before trailing
    white space that is already there. *)
Definition at_line_end (post : pystr) : bool := blank (head_line post).

(** One edit: a blank line put before or after a line, or white space put in
    front of or behind a line. *)
Inductive whitespace_edit : pystr -> pystr -> Prop :=
  | blank_line_before (pre post b : pystr) :
      at_line_start pre = true -> blank b = true ->
      whitespace_edit (pre ++ post) (pre ++ (b ++ LF) ++ post)
  | blank_line_after (pre post b : pystr) :
      at_line_end post = true -> blank b = true ->
      whitespace_edit (pre ++ post) (pre ++ (LF ++ b) ++ post)
  | leading_space (pre post ws : pystr) :
      at_line_start pre = true -> blank ws = true ->
      whitespace_edit (pre ++ post) (pre ++ ws ++ post)
  | trailing_space (pre post ws : pystr) :
      at_line_end post = true -> blank ws = true ->
      whitespace_edit (pre ++ post) (pre ++ ws ++ post).

(** ** Values, exceptions and the run of a statement *)

(** The objects [response.json()] can produce.  A [float] is kept as its
    IEEE 754 binary64 bit pattern. *)
Inductive pyvalue : Type :=
  | PyNone
  | PyBool (b : bool)
  | PyInt (z : Z)
  | PyFloat (bits : N)
  | PyStr (s : pystr)
  | PyList (l : list pyvalue)
  | PyDict (d : gmap pystr pyvalue).

(** Exception classes that can occur while the script runs.  All but
    [KeyboardInterrupt] derive from [Exception]. *)
Inductive exc_class : Type :=
  | KeyboardInterrupt
  | ConnectionError | Timeout | SSLError | InvalidHeader | RequestException
  | JSONDecodeError
  | AttributeError | TypeError | ValueError | binascii_Error
  | UnicodeDecodeError | SyntaxError
  | UnicodeEncodeError.

(** An exception object: its class and [str(e)]. *)
Record exn : Type := Exn { exn_class : exc_class; exn_str : pystr }.

(** [isinstance(e, Exception)] *)
Definition is_Exception (e : exn) : bool :=
  match exn_class e with KeyboardInterrupt => false | _ => true end.

(** What a run leaves behind: lines printed, requests sent, and the library
    routines and local functions entered. *)
Inductive event : Type :=
  | Stdout (text : pystr)
  | Stderr (text : pystr)
  | LoadDotenv (path : pystr)
  | HttpGet (url : pystr) (headers : gmap pystr pystr)
  | ResponseJson
  | B64Decode (arg : pyvalue)
  | BytesDecode (raw : pybytes)
  | CleanContent (content : pystr)
  | Traceback (e : exn).

Inductive outcome (A : Type) : Type :=
  | Returned (a : A)
  | Raised (e : exn).
Arguments Returned {A} a.
Arguments Raised {A} e.

(** A statement that has run: the events it produced, in order, and how it
    ended. *)
Definition run (A : Type) : Type := list event * outcome A.

#[global] Instance run_ret : MRet run := fun A a => ([], Returned a).
#[global] Instance run_bind : MBind run := fun A B k m =>
  match m with
  | (t, Returned a) => let '(t', o) := k a in (t ++ t', o)
  | (t, Raised e) => (t, Raised e)
  end.
#[global] Instance run_throw : MThrow exn run := fun A e => ([], Raised e).

Definition emit (ev : event) : run unit := ([ev], Returned tt).

(** [try: body  except Exception as e: handler e] *)
Definition try_except {A : Type} (body : run A) (handler : exn -> run A) : run A :=
  match body with
  | (t, Returned a) => (t, Returned a)
  | (t, Raised e) =>
      if is_Exception e then let '(t', o) := handler e in (t ++ t', o)
      else (t, Raised e)
  end.

(** A library call that either fails or gives a value. *)
Definition lift {A : Type} (r : exn + A) : run A :=
  match r with inl e => mthrow e | inr a => mret a end.

Definition trace_of {A : Type} (r : run A) : list event := fst r.
Definition outcome_of {A : Type} (r : run A) : outcome A := snd r.

(** ** Library routines *)

(** [bytes.decode("utf-8")], strict error handling. *)
Module codecs.
Local Open Scope N_scope.

Definition hex_digit (d : N) : N := if d <? 10 then 48 + d else 87 + d.

(** [str(n)] for a non-negative [int]. *)
Definition decimal (n : N) : pystr :=
  List.map N_of_ascii (list_ascii_of_string (NilZero.string_of_uint (N.to_uint n))).

(** The bytes of a string literal of this file. *)
Definition octets (s : string) : pybytes :=
  List.map N_of_ascii (list_ascii_of_string s).

Inductive reason : Type := invalid_start_byte | invalid_continuation_byte | unexpected_end_of_data.

Definition reason_text (r : reason) : pystr :=
  match r with
  | invalid_start_byte => octets "invalid start byte"
  | invalid_continuation_byte => octets "invalid continuation byte"
  | unexpected_end_of_data => octets "unexpected end of data"
  end.

(** The [UnicodeDecodeError] for the bytes at positions [start, stop). *)
Definition decode_error (first : N) (start stop : N) (r : reason) : exn :=
  Exn UnicodeDecodeError
    (if stop - start =? 1 then
       octets "'utf-8' codec can't decode byte 0x"
         ++ [hex_digit (first / 16); hex_digit (first mod 16)]
         ++ octets " in position " ++ decimal start ++ octets ": " ++ reason_text r
     else
       octets "'utf-8' codec can't decode bytes in position "
         ++ decimal start ++ octets "-" ++ decimal (stop - 1)
         ++ octets ": " ++ reason_text r).

Definition is_continuation (b : N) : bool := (128 <=? b) && (b <=? 191).

Definition cons_char (c : N) (r : exn + pystr) : exn + pystr :=
  match r with inl e => inl e | inr s => inr (c :: s) end.

Definition low6 (b : N) : N := N.land b 63.

Fixpoint utf_8_decode_at (pos : N) (s : pybytes) {struct s} : exn + pystr :=
  match s with
  | [] => inr []
  | ch :: s1 =>
      if ch <? 128 then cons_char ch (utf_8_decode_at (pos + 1) s1)
      else if ch <? 224 then
        if ch <? 194 then inl (decode_error ch pos (pos + 1) invalid_start_byte)
        else match s1 with
             | [] => inl (decode_error ch pos (pos + 1) unexpected_end_of_data)
             | ch2 :: s2 =>
                 if negb (is_continuation ch2)
                 then inl (decode_error ch pos (pos + 1) invalid_continuation_byte)
                 else cons_char (N.lor (N.shiftl (N.land ch 31) 6) (low6 ch2))
                                (utf_8_decode_at (pos + 2) s2)
             end
      else if ch <? 240 then
        match s1 with
        | [] => inl (decode_error ch pos (pos + 1) unexpected_end_of_data)
        | ch2 :: s2 =>
            if negb (is_continuation ch2)
               || (if ch2 <? 160 then ch =? 224 else ch =? 237)
            then inl (decode_error ch pos (pos + 1) invalid_continuation_byte)
            else match s2 with
                 | [] => inl (decode_error ch pos (pos + 2) unexpected_end_of_data)
                 | ch3 :: s3 =>
                     if negb (is_continuation ch3)
                     then inl (decode_error ch pos (pos + 2) invalid_continuation_byte)
                     else cons_char
                            (N.lor (N.shiftl (N.land ch 15) 12)
                               (N.lor (N.shiftl (low6 ch2) 6) (low6 ch3)))
                            (utf_8_decode_at (pos + 3) s3)
                 end
        end
      else if ch <? 245 then
        match s1 with
        | [] => inl (decode_error ch pos (pos + 1) unexpected_end_of_data)
        | ch2 :: s2 =>
            if negb (is_continuation ch2)
               || (if ch2 <? 144 then ch =? 240 else ch =? 244)
            then inl (decode_error ch pos (pos + 1) invalid_continuation_byte)
            else match s2 with
                 | [] => inl (decode_error ch pos (pos + 2) unexpected_end_of_data)
                 | ch3 :: s3 =>
                     if negb (is_continuation ch3)
                     then inl (decode_error ch pos (pos + 2) invalid_continuation_byte)
                     else match s3 with
                          | [] => inl (decode_error ch pos (pos + 3) unexpected_end_of_data)
                          | ch4 :: s4 =>
                              if negb (is_continuation ch4)
                              then inl (decode_error ch pos (pos + 3) invalid_continuation_byte)
                              else cons_char
                                     (N.lor (N.shiftl (N.land ch 7) 18)
                                        (N.lor (N.shiftl (low6 ch2) 12)
                                           (N.lor (N.shiftl (low6 ch3) 6) (low6 ch4))))
                                     (utf_8_decode_at (pos + 4) s4)
                          end
                 end
        end
      else inl (decode_error ch pos (pos + 1) invalid_start_byte)
  end.

Definition utf_8_decode (raw : pybytes) : exn + pystr := utf_8_decode_at 0 raw.
End codecs.

(** A [str] literal of the script: the file is UTF-8, so the literal's text
    is the decoding of the bytes between the quotes. *)
Definition py (literal : string) : pystr :=
  match codecs.utf_8_decode (codecs.octets literal) with
  | inr text => text
  | inl _ => []
  end.
Arguments py : simpl never.

(** The double quote character, which a literal above cannot hold. *)
Definition DQ : pystr := [34%N].

(** [base64.b64decode(s)] with the default arguments. *)
Module base64.
Local Open Scope N_scope.

(** [type(v).__name__] *)
Definition type_name (v : pyvalue) : pystr :=
  match v with
  | PyNone => py "NoneType"
  | PyBool _ => py "bool"
  | PyInt _ => py "int"
  | PyFloat _ => py "float"
  | PyStr _ => py "str"
  | PyList _ => py "list"
  | PyDict _ => py "dict"
  end.

(** Value of a character of the base64 alphabet. *)
Definition table_a2b_base64 (c : N) : option N :=
  if (65 <=? c) && (c <=? 90) then Some (c - 65)
  else if (97 <=? c) && (c <=? 122) then Some (c - 71)
  else if (48 <=? c) && (c <=? 57) then Some (c + 4)
  else if c =? 43 then Some 62
  else if c =? 47 then Some 63
  else None.

Definition BASE64_PAD : N := 61.

(** The loop of [binascii.a2b_base64] (not strict): [quad_pos] is the
    position in the current group of four characters, [leftchar] the bits
    not yet written, [pads] the padding characters seen since the last
    data character, [out] the bytes written so far. *)
Fixpoint a2b_base64_loop (quad_pos leftchar pads : N) (out : pybytes)
         (data : pybytes) : exn + pybytes :=
  match data with
  | [] =>
      if quad_pos =? 0 then inr out
      else if quad_pos =? 1 then
        inl (Exn binascii_Error
               (py "Invalid base64-encoded string: number of data characters ("
                ++ codecs.decimal (N.of_nat (length out) / 3 * 4 + 1)
                ++ py ") cannot be 1 more than a multiple of 4"))
      else inl (Exn binascii_Error (py "Incorrect padding"))
  | this_ch :: data' =>
      if this_ch =? BASE64_PAD then
        if 2 <=? quad_pos then
          if 4 <=? quad_pos + (pads + 1) then inr out
          else a2b_base64_loop quad_pos leftchar (pads + 1) out data'
        else a2b_base64_loop quad_pos leftchar pads out data'
      else
        match table_a2b_base64 this_ch with
        | None => a2b_base64_loop quad_pos leftchar pads out data'
        | Some v =>
            if quad_pos =? 0 then a2b_base64_loop 1 v 0 out data'
            else if quad_pos =? 1 then
              a2b_base64_loop 2 (N.land v 15) 0
                (out ++ [N.lor (N.shiftl leftchar 2) (N.shiftr v 4)]) data'
            else if quad_pos =? 2 then
              a2b_base64_loop 3 (N.land v 3) 0
                (out ++ [N.lor (N.shiftl leftchar 4) (N.shiftr v 2)]) data'
            else
              a2b_base64_loop 0 0 0
                (out ++ [N.lor (N.shiftl leftchar 6) v]) data'
        end
  end.

Definition a2b_base64 (data : pybytes) : exn + pybytes :=
  a2b_base64_loop 0 0 0 [] data.

(** [_bytes_from_decode_data]: an ASCII [str] becomes its bytes; the other
    values [response.json()] can give are not bytes-like. *)
Definition bytes_from_decode_data (s : pyvalue) : exn + pybytes :=
  match s with
  | PyStr text =>
      if forallb (fun c => c <? 128) text then inr text
      else inl (Exn ValueError (py "string argument should contain only ASCII characters"))
  | _ =>
      inl (Exn TypeError
             (py "argument should be a bytes-like object or ASCII string, not '"
              ++ type_name s ++ py "'"))
  end.

Definition b64decode (s : pyvalue) : exn + pybytes :=
  match bytes_from_decode_data s with
  | inl e => inl e
  | inr data => a2b_base64 data
  end.

(** The inverse direction, used to build the [content] field that the
    server sends for a given file. *)
Definition alphabet (v : N) : N :=
  if v <? 26 then v + 65 else if v <? 52 then v + 71
  else if v <? 62 then v - 4 else if v =? 62 then 43 else 47.

Fixpoint b2a_base64 (raw : pybytes) : pybytes :=
  match raw with
  | [] => []
  | [a] => [alphabet (N.shiftr a 2); alphabet (N.shiftl (N.land a 3) 4); BASE64_PAD; BASE64_PAD]
  | [a; b] =>
      [alphabet (N.shiftr a 2);
       alphabet (N.lor (N.shiftl (N.land a 3) 4) (N.shiftr b 4));
       alphabet (N.shiftl (N.land b 15) 2); BASE64_PAD]
  | a :: b :: c :: raw' =>
      alphabet (N.shiftr a 2)
      :: alphabet (N.lor (N.shiftl (N.land a 3) 4) (N.shiftr b 4))
      :: alphabet (N.lor (N.shiftl (N.land b 15) 2) (N.shiftr c 6))
      :: alphabet (N.land c 63) :: b2a_base64 raw'
  end.
End base64.

(** ** The world the script runs in *)

(** A [requests.Response]: its status code and what [response.json()] does. *)
Record Response : Type := { status_code : Z; json : exn + pyvalue }.

(** The process environment at start, the settings [load_dotenv] finds in
    [.mcp_env] (none when the file is absent), the network: what
    [requests.get] does for a URL and request headers, and the standard
    output: whether it takes a text ([None]) or the write raises, as it does
    with [UnicodeEncodeError] when its encoding, under the [strict] handler,
    has no code for a character of the text (Chinese text on an ASCII
    terminal, a lone surrogate). *)
Record World : Type := {
  os_environ : gmap pystr pystr;
  dotenv_values : gmap pystr pystr;
  server : pystr -> gmap pystr pystr -> exn + Response;
  stdout_write : pystr -> option exn
}.

(** [load_dotenv(path)] sets the variables of the file that the environment
    does not define yet; the result here is [os.environ] after the call. *)
Definition load_dotenv (w : World) (path : pystr) : run (gmap pystr pystr) :=
  emit (LoadDotenv path);; mret (os_environ w ∪ dotenv_values w).

(** [print(text)] *)
Definition print (w : World) (text : pystr) : run unit :=
  match stdout_write w text with
  | None => emit (Stdout text)
  | Some e => mthrow e
  end.

(** [print(text, file=sys.stderr)]; the error stream replaces what it cannot
    encode ([backslashreplace]). *)
Definition print_stderr (text : pystr) : run unit := emit (Stderr text).

Module requests.
(** [requests.get(url, headers=headers)] *)
Definition get (w : World) (url : pystr) (headers : gmap pystr pystr) : run Response :=
  emit (HttpGet url headers);; lift (server w url headers).

(** [response.json()] *)
Definition response_json (response : Response) : run pyvalue :=
  emit ResponseJson;; lift (json response).
End requests.

(** Truth value of an object. *)
Definition truth (v : pyvalue) : bool :=
  match v with
  | PyNone => false
  | PyBool b => b
  | PyInt z => negb (z =? 0)%Z
  | PyFloat bits => negb (N.land bits (2 ^ 63 - 1) =? 0)%N
  | PyStr s => truthy s
  | PyList l => match l with [] => false | _ => true end
  | PyDict d => negb (Nat.eqb (size d) 0)
  end.

(** Truth value of an [Optional[str]], as [os.environ.get(name)] and
    [_get_license_content] return it: [None] and the empty string are false. *)
Definition truth_opt (value : option pystr) : bool :=
  match value with Some s => truthy s | None => false end.

(** [obj.get(key, default)]: only a [dict] has the method. *)
Definition get_method (obj : pyvalue) (key : pystr) (dflt : pyvalue) : exn + pyvalue :=
  match obj with
  | PyDict d => inr (default dflt (d !! key))
  | _ => inl (Exn AttributeError
                (py "'" ++ base64.type_name obj ++ py "' object has no attribute 'get'"))
  end.

(** [str(n)] for an [int]. *)
Definition str_int (z : Z) : pystr :=
  if (z <? 0)%Z then py "-" ++ codecs.decimal (Z.to_N (- z)) else codecs.decimal (Z.to_N z).

(** [s * n] *)
Definition str_mul (s : pystr) (n : nat) : pystr := concat (replicate n s).

Definition b64decode (arg : pyvalue) : run pybytes :=
  emit (B64Decode arg);; lift (base64.b64decode arg).

Definition decode_utf_8 (raw : pybytes) : run pystr :=
  emit (BytesDecode raw);; lift (codecs.utf_8_decode raw).

(** ** The script *)

(** Lines 20-40. *)
Definition _call_github_api (w : World) (endpoint : pystr)
    (headers : gmap pystr pystr) (org repo : pystr) : run (bool * pyvalue) :=
  let url := py "https://api.github.com/repos/" ++ org ++ py "/" ++ repo
             ++ py "/" ++ endpoint in
  try_except
    (response ← requests.get w url headers;
     if (status_code response =? 200)%Z then
       body ← requests.response_json response;
       mret (true, body)
     else if (status_code response =? 404)%Z then
       print_stderr (py "[API 提示] " ++ endpoint
                     ++ py " 资源未找到（404），可能是仓库/文件不存在或分支错误");;
       mret (false, PyNone)
     else
       print_stderr (py "[API 错误] " ++ endpoint ++ py " 状态码："
                     ++ str_int (status_code response) ++ py "，可能是令牌权限不足");;
       mret (false, PyNone))
    (fun e =>
       print_stderr (py "[API 异常] 调用 " ++ endpoint ++ py " 失败：" ++ exn_str e
                     ++ py "，请检查网络连接");;
       mret (false, PyNone)).

(** Lines 43-61; [None] is the function's [None] result. *)
Definition _get_license_content (w : World) (headers : gmap pystr pystr)
    (org repo branch : pystr) : run (option pystr) :=
  '(success, result) ← _call_github_api w (py "contents/LICENSE?ref=" ++ branch)
                         headers org repo;
  if negb success || negb (truth result) then mret None
  else
    try_except
      (content ← lift (get_method result (py "content") (PyStr []));
       raw ← b64decode content;
       text ← decode_utf_8 raw;
       mret (Some text))
      (fun e =>
         print_stderr (py "[文件解码错误] LICENSE：" ++ exn_str e
                       ++ py "，可能是文件编码非 UTF-8");;
         mret None).

(** Lines 70-85. *)
Definition EXPECTED_MIT_CONTENT : pystr :=
  py "MIT License" ++ LF
  ++ py "Copyright (c) [Year] [Copyright Holder]" ++ LF
  ++ py "Permission is hereby granted, free of charge, to any person obtaining a copy" ++ LF
  ++ py "of this software and associated documentation files (the " ++ DQ ++ py "Software"
  ++ DQ ++ py "), to deal" ++ LF
  ++ py "in the Software without restriction, including without limitation the rights" ++ LF
  ++ py "to use, copy, modify, merge, publish, distribute, sublicense, and/or sell" ++ LF
  ++ py "copies of the Software, subject to the following conditions:" ++ LF
  ++ py "The above copyright notice and this permission notice shall be included in all" ++ LF
  ++ py "copies or substantial portions of the Software." ++ LF
  ++ py "THE SOFTWARE IS PROVIDED " ++ DQ ++ py "AS IS" ++ DQ
  ++ py ", WITHOUT WARRANTY OF ANY KIND, EXPRESS OR" ++ LF
  ++ py "IMPLIED, INCLUDING BUT NOT LIMITED TO THE WARRANTIES OF MERCHANTABILITY," ++ LF
  ++ py "FITNESS FOR A PARTICULAR PURPOSE AND NONINFRINGEMENT. IN NO EVENT SHALL THE" ++ LF
  ++ py "AUTHORS OR COPYRIGHT HOLDERS BE LIABLE FOR ANY CLAIM, DAMAGES OR OTHER" ++ LF
  ++ py "LIABILITY, WHETHER IN AN ACTION OF CONTRACT, TORT OR OTHERWISE, ARISING FROM," ++ LF
  ++ py "OUT OF OR IN CONNECTION WITH THE SOFTWARE OR THE USE OR OTHER DEALINGS IN THE" ++ LF
  ++ py "SOFTWARE.".

(** The call [clean_content(content)] of lines 127-128. *)
Definition call_clean_content (content : pystr) : run pystr :=
  emit (CleanContent content);; mret (clean_content content).

(** Line 144 is
    [print(f"  - 版权信息：{[2025]} {[My Team / Your Name]}（与 LICENSE 文件中配置一致）")].
    The second replacement field of the f-string, [[My Team / Your Name]],
    is not a Python expression (two names in a row), and the compiler
    rejects the statement with this exception. *)
Abbreviation line_144_error :=
  (Exn SyntaxError (py "f-string: invalid syntax. Perhaps you forgot a comma?")).

(** What compiling line 144 gives: the statement to run, or the compiler's
    error. *)
Definition compile_line_144 : exn + run unit := inl line_144_error.

(** The statements of lines 67-146, [line_144] standing for the statement of
    line 144. *)
Definition verify_license_compliance_body (line_144 : run unit) (w : World) : run bool :=
  environ ← load_dotenv w (py ".mcp_env");
  let github_token := environ !! py "MCP_GITHUB_TOKEN" in
  let github_org := environ !! py "GITHUB_EVAL_ORG" in
  if negb (truth_opt github_token) then
    print_stderr (py "Error: .mcp_env 文件中未配置 MCP_GITHUB_TOKEN（GitHub 令牌）");;
    mret false
  else if negb (truth_opt github_org) then
    print_stderr (py "Error: .mcp_env 文件中未配置 GITHUB_EVAL_ORG（GitHub 组织/用户名）");;
    mret false
  else
    let github_token := default [] github_token in
    let github_org := default [] github_org in
    let headers : gmap pystr pystr :=
      <[ py "Accept" := py "application/vnd.github.v3+json" ]>
        (<[ py "Authorization" := py "Bearer " ++ github_token ]> ∅) in
    print w (str_mul (py "=") 60);;
    print w (py "开始执行 GitHub LICENSE 文件（MIT 协议）合规性验证");;
    print w (py "目标仓库：" ++ github_org ++ py "/project-x（main 分支）");;
    print w (str_mul (py "=") 60);;
    print w (LF ++ py "[1/2] 检查 main 分支中 LICENSE 文件是否存在...");;
    license_content ← _get_license_content w headers github_org (py "project-x") (py "main");
    if negb (truth_opt license_content) then
      print_stderr (py "Error: main 分支中未找到 LICENSE 文件（可能是路径、分支错误或令牌无权限）");;
      mret false
    else
      let license_content := default [] license_content in
      print w (py "✓ 成功：LICENSE 文件存在于 main 分支");;
      print w (LF ++ py "[2/2] 验证 LICENSE 内容是否符合 MIT 协议标准...");;
      cleaned_actual ← call_clean_content license_content;
      cleaned_expected ← call_clean_content EXPECTED_MIT_CONTENT;
      if negb (bool_decide (cleaned_actual = cleaned_expected)) then
        print_stderr (py "Error: LICENSE 内容不符合 MIT 协议标准");;
        print_stderr (py "预期核心条款（示例）：Permission is hereby granted, free of charge...");;
        print_stderr (py "实际核心条款（示例）：" ++ slice_to 60 cleaned_actual ++ py "...");;
        mret false
      else
        print w (py "✓ 成功：LICENSE 内容符合 MIT 协议标准");;
        print w (LF ++ str_mul (py "=") 60);;
        print w (py "🎉 所有验证步骤通过！LICENSE 文件（MIT 协议）合规性校验成功");;
        print w (LF ++ py "验证总结：");;
        print w (py "  - 目标仓库：" ++ github_org ++ py "/project-x");;
        print w (py "  - 验证文件：LICENSE（main 分支，根目录）");;
        print w (py "  - 协议类型：MIT 开源协议");;
        line_144;;
        print w (str_mul (py "=") 60);;
        mret true.

(** The function of lines 67-146, given what compiling line 144 gave.  The
    compiler works on the whole file, the bodies of its functions included,
    before the first statement runs: with an error there is no function to
    call, and the attempt ends with that error and without any event. *)
Definition verify_license_compliance_given (compiled : exn + run unit) (w : World)
    : run bool :=
  match compiled with
  | inl e => mthrow e
  | inr line_144 => verify_license_compliance_body line_144 w
  end.

(** Lines 67-146 as shipped: line 144 does not compile, so a call runs no
    statement and ends with the compiler's error. *)
Definition verify_license_compliance (w : World) : run bool :=
  verify_license_compliance_given compile_line_144 w.

(** How the process ends: [sys.exit(code)], or the interpreter's own end
    after an exception nobody caught (status 1 after the traceback, or the
    interrupt passed on for a [KeyboardInterrupt]). *)
Inductive exit_status : Type :=
  | Exit (code : Z)
  | Interrupted.

(** The script as a process: the file is compiled, then lines 152-154 run.
    A compiler's error is reported like an exception nobody caught. *)
Definition main (w : World) : list event * exit_status :=
  match compile_line_144 with
  | inl e => ([Traceback e], Exit 1)
  | inr line_144 =>
      match verify_license_compliance_body line_144 w with
      | (t, Returned success) => (t, Exit (if success then 0 else 1))
      | (t, Raised e) => (t ++ [Traceback e], if is_Exception e then Exit 1 else Interrupted)
      end
  end.

(** ** Vocabulary of the statements *)

(** [os.environ] once [load_dotenv] has run. *)
Definition environ (w : World) : gmap pystr pystr := os_environ w ∪ dotenv_values w.

Definition github_token (w : World) : option pystr := environ w !! py "MCP_GITHUB_TOKEN".
Definition github_org (w : World) : option pystr := environ w !! py "GITHUB_EVAL_ORG".

(** Both settings are present and not empty. *)
Definition configured (w : World) : bool :=
  truth_opt (github_token w) && truth_opt (github_org w).

(** The request the checker sends in a configured world. *)
Definition request_headers (w : World) : gmap pystr pystr :=
  <[ py "Accept" := py "application/vnd.github.v3+json" ]>
    (<[ py "Authorization" := py "Bearer " ++ default [] (github_token w) ]> ∅).

Definition license_endpoint : pystr := py "contents/LICENSE?ref=" ++ py "main".

(** The URL [_call_github_api] builds. *)
Definition api_url (org repo endpoint : pystr) : pystr :=
  py "https://api.github.com/repos/" ++ org ++ py "/" ++ repo ++ py "/" ++ endpoint.

Definition license_url (w : World) : pystr :=
  api_url (default [] (github_org w)) (py "project-x") license_endpoint.

(** What the network answers to that request. *)
Definition answer (w : World) : exn + Response :=
  server w (license_url w) (request_headers w).

(** The fetch of line 114. *)
Definition fetch (w : World) : run (option pystr) :=
  _get_license_content w (request_headers w) (default [] (github_org w))
    (py "project-x") (py "main").

(** The diagnostics. *)
Definition diag_missing_token : pystr :=
  py "Error: .mcp_env 文件中未配置 MCP_GITHUB_TOKEN（GitHub 令牌）".
Definition diag_missing_org : pystr :=
  py "Error: .mcp_env 文件中未配置 GITHUB_EVAL_ORG（GitHub 组织/用户名）".
Definition diag_not_found : pystr :=
  py "Error: main 分支中未找到 LICENSE 文件（可能是路径、分支错误或令牌无权限）".
Definition diag_api_not_found (endpoint : pystr) : pystr :=
  py "[API 提示] " ++ endpoint ++ py " 资源未找到（404），可能是仓库/文件不存在或分支错误".
Definition diag_api_status (endpoint : pystr) (status : Z) : pystr :=
  py "[API 错误] " ++ endpoint ++ py " 状态码：" ++ str_int status
  ++ py "，可能是令牌权限不足".
Definition diag_api_exception (endpoint message : pystr) : pystr :=
  py "[API 异常] 调用 " ++ endpoint ++ py " 失败：" ++ message ++ py "，请检查网络连接".
Definition diag_decode (message : pystr) : pystr :=
  py "[文件解码错误] LICENSE：" ++ message ++ py "，可能是文件编码非 UTF-8".
Definition diag_mismatch : pystr := py "Error: LICENSE 内容不符合 MIT 协议标准".
Definition diag_expected_clause : pystr :=
  py "预期核心条款（示例）：Permission is hereby granted, free of charge...".
Definition diag_actual_clause (cleaned_actual : pystr) : pystr :=
  py "实际核心条款（示例）：" ++ slice_to 60 cleaned_actual ++ py "...".

(** The lines written to the error stream, in order. *)
Definition stderr_of (t : list event) : list pystr :=
  omap (fun ev => match ev with Stderr text => Some text | _ => None end) t.

(** How a run of the check ends when it fails with [diagnostic]: with the
    result false, the lines of [diagnostic] being all it wrote to the error
    stream, or with an exception, raised before it wrote anything there. *)
Definition fails_with (diagnostic : list pystr) (r : run bool) : Prop :=
  (outcome_of r = Returned false /\ stderr_of (trace_of r) = diagnostic)
  \/ (exists e, outcome_of r = Raised e /\ stderr_of (trace_of r) = []).

Definition is_request (ev : event) : bool :=
  match ev with HttpGet _ _ => true | _ => false end.

(** A decoding step, or a normalization (and with it the comparison, which
    line 130 makes on the two normalized texts). *)
Definition is_decode_or_normalize (ev : event) : bool :=
  match ev with
  | B64Decode _ | BytesDecode _ | CleanContent _ => true
  | _ => false
  end.

(** The fetch did not end in a 200 response with a body: another status (404
    or any other), or an exception of the transport, raised by the request
    or by the parsing of a 200 response. *)
Definition fetch_fails (w : World) : bool :=
  match answer w with
  | inl e => is_Exception e
  | inr response =>
      if (status_code response =? 200)%Z then
        match json response with inl e => is_Exception e | inr _ => false end
      else true
  end.

(** The request or the parsing of the response raises [e]. *)
Inductive transport_failure (w : World) (url : pystr) (headers : gmap pystr pystr)
    (e : exn) : Prop :=
  | request_raises :
      server w url headers = inl e -> transport_failure w url headers e
  | response_malformed (response : Response) :
      server w url headers = inr response -> status_code response = 200%Z ->
      json response = inl e -> transport_failure w url headers e.

(** A 200 response whose file content decodes to the empty string, or whose
    JSON object has no [content] field. *)
Inductive empty_file (body : pyvalue) : Prop :=
  | decodes_to_empty (content : pyvalue) (raw : pybytes) :
      get_method body (py "content") (PyStr []) = inr content ->
      base64.b64decode content = inr raw ->
      codecs.utf_8_decode raw = inr [] ->
      empty_file body
  | no_content_field (d : gmap pystr pyvalue) :
      body = PyDict d -> d !! py "content" = None -> empty_file body.

(** ** Sample worlds *)

Definition sample_settings : gmap pystr pystr :=
  <[ py "MCP_GITHUB_TOKEN" := py "ghp_example" ]> (<[ py "GITHUB_EVAL_ORG" := py "octo-org" ]> ∅).

Definition sample_url : pystr :=
  py "https://api.github.com/repos/octo-org/project-x/contents/LICENSE?ref=main".

(** A server that knows one file; every other request gets a 404. *)
Definition serve (content : pyvalue) (url : pystr) (headers : gmap pystr pystr)
    : exn + Response :=
  if bool_decide (url = sample_url) then
    inr {| status_code := 200;
           json := inr (PyDict (<[ py "content" := content ]> (<[ py "name" := PyStr (py "LICENSE") ]> ∅))) |}
  else inr {| status_code := 404; json := inr PyNone |}.

(** Settings in [.mcp_env]; the repository holds the canonical template. *)
Definition world_mit : World :=
  {| os_environ := ∅; dotenv_values := sample_settings;
     server := serve (PyStr (base64.b2a_base64 EXPECTED_MIT_CONTENT));
     stdout_write := fun _ => None |}.

(** The repository holds an empty LICENSE file. *)
Definition world_empty_license : World :=
  {| os_environ := ∅; dotenv_values := sample_settings; server := serve (PyStr []);
     stdout_write := fun _ => None |}.

(** The repository holds another text. *)
Definition world_other_license : World :=
  {| os_environ := ∅; dotenv_values := sample_settings;
     server := serve (PyStr (base64.b2a_base64 (py "Apache License" ++ LF ++ py "  Version 2.0" ++ LF)));
     stdout_write := fun _ => None |}.

(** Neither setting is defined anywhere. *)
Definition world_unconfigured : World :=
  {| os_environ := ∅; dotenv_values := ∅; server := serve (PyStr []);
     stdout_write := fun _ => None |}.

(** The network is down. *)
Definition world_offline : World :=
  {| os_environ := sample_settings; dotenv_values := ∅;
     server := fun _ _ => inl (Exn ConnectionError (py "Max retries exceeded"));
     stdout_write := fun _ => None |}.

(** ** Sample texts *)

Definition sample_text : pystr := py "a" ++ LF ++ py "b".
Definition sample_text_edited : pystr :=
  py "a " ++ LF ++ LF ++ py "  b".

(** ** Vocabulary of the further properties *)

(** The characters of [s] that are not white space, in order. *)
Definition non_space (s : pystr) : pystr :=
  List.filter (fun c => negb (Py_UNICODE_ISSPACE c)) s.

(** The size of a text given by its lines: each line and the boundary (or
    end of the text) after it. *)
Definition size_of_lines (ls : list pystr) : nat :=
  list_sum (List.map (fun l => S (length l)) ls).

(** The requests among the events of a run. *)
Definition requests_of (t : list event) : list event := List.filter is_request t.

(** What the decoding of lines 56-58 makes of a JSON body: the text of its
    [content] field, or the exception of the first step that fails. *)
Definition decoded_text (body : pyvalue) : exn + pystr :=
  match get_method body (py "content") (PyStr []) with
  | inl e => inl e
  | inr content =>
      match base64.b64decode content with
      | inl e => inl e
      | inr raw => codecs.utf_8_decode raw
      end
  end.

(** The decoding steps entered for a JSON body, up to the first that fails. *)
Definition decode_events (body : pyvalue) : list event :=
  match get_method body (py "content") (PyStr []) with
  | inl _ => []
  | inr content =>
      B64Decode content
      :: match base64.b64decode content with
         | inl _ => []
         | inr raw => [BytesDecode raw]
         end
  end.

(** The process environment defines the token as the empty string, while
    [.mcp_env] holds both settings. *)
Definition world_empty_token_in_environment : World :=
  {| os_environ := <[ py "MCP_GITHUB_TOKEN" := [] ]> ∅; dotenv_values := sample_settings;
     server := serve (PyStr (base64.b2a_base64 EXPECTED_MIT_CONTENT));
     stdout_write := fun _ => None |}.

(** The server answers 403. *)
Definition world_forbidden : World :=
  {| os_environ := sample_settings; dotenv_values := ∅;
     server := fun _ _ => inr {| status_code := 403; json := inr PyNone |};
     stdout_write := fun _ => None |}.

(** The server answers 200 with an empty JSON object. *)
Definition world_empty_object : World :=
  {| os_environ := sample_settings; dotenv_values := ∅;
     server := fun _ _ => inr {| status_code := 200; json := inr (PyDict ∅) |};
     stdout_write := fun _ => None |}.

(** The request is interrupted from the keyboard. *)
Definition world_interrupted : World :=
  {| os_environ := sample_settings; dotenv_values := ∅;
     server := fun _ _ => inl (Exn KeyboardInterrupt []);
     stdout_write := fun _ => None |}.

(** The repository holds a LICENSE that is not UTF-8 (the single byte 255). *)
Definition world_undecodable : World :=
  {| os_environ := sample_settings; dotenv_values := ∅;
     server := serve (PyStr (py "/w=="));
     stdout_write := fun _ => None |}.

(** A text of ASCII characters only; its UTF-8 encoding is the text itself. *)
Definition is_ascii (s : pystr) : bool := forallb (fun c => (c <? 128)%N) s.

(** An ASCII character that [base64.b64decode] passes over: neither in the
    alphabet nor the padding character. *)
Definition discarded (c : N) : bool :=
  (c <? 128)%N && negb (c =? base64.BASE64_PAD)%N
  && match base64.table_a2b_base64 c with None => true | Some _ => false end.

(** The repository holds the template; the server breaks the base64 text of
    the [content] field into lines. *)
Definition world_mit_wrapped : World :=
  {| os_environ := ∅; dotenv_values := sample_settings;
     server := serve (PyStr (take 60 (base64.b2a_base64 EXPECTED_MIT_CONTENT) ++ LF
                             ++ drop 60 (base64.b2a_base64 EXPECTED_MIT_CONTENT) ++ LF));
     stdout_write := fun _ => None |}.

(** Both settings are present, and the standard output is an ASCII terminal:
    it refuses the first text of the script that is not ASCII, that of line
    108. *)
Definition world_ascii_terminal : World :=
  {| os_environ := sample_settings; dotenv_values := ∅;
     server := serve (PyStr (base64.b2a_base64 EXPECTED_MIT_CONTENT));
     stdout_write := fun text =>
       if is_ascii text then None
       else Some (Exn UnicodeEncodeError
                    (py "'ascii' codec can't encode characters in position 0-3: ordinal not in range(128)")) |}.

(** [P] holds of every number below [n]. *)
Definition all_below (n : nat) (P : N -> bool) : bool :=
  forallb P (List.map N.of_nat (seq 0 n)).

(** * Properties *)

Section text_lemmas.
Local Open Scope N_scope.

Lemma linebreak_is_space c :
  Py_UNICODE_ISLINEBREAK c = true -> Py_UNICODE_ISSPACE c = true.
Proof.
  unfold Py_UNICODE_ISLINEBREAK, Py_UNICODE_ISSPACE.
  rewrite !orb_true_iff, !andb_true_iff, !N.leb_le, !N.eqb_eq. lia.
Qed.

Lemma blank_Forall s : blank s = true <-> Forall (fun c => Py_UNICODE_ISSPACE c = true) s.
Proof.
  unfold blank. induction s as [|c s IH]; simpl.
  - split; [constructor | done].
  - rewrite andb_true_iff, Forall_cons, IH. done.
Qed.

Lemma blank_app a b : blank (a ++ b) = blank a && blank b.
Proof. unfold blank. apply forallb_app. Qed.

Lemma blank_nil : blank [] = true.
Proof. reflexivity. Qed.

Lemma blank_LF : blank LF = true.
Proof. reflexivity. Qed.

(** *** [lstrip], [rstrip], [strip] *)

Lemma lstrip_blank s : blank s = true -> lstrip s = [].
Proof.
  induction s as [|c s IH]; simpl; [done|].
  intros [Hc Hs]%andb_true_iff. rewrite Hc. auto.
Qed.

Lemma rstrip_blank s : blank s = true -> rstrip s = [].
Proof.
  induction s as [|c s IH]; simpl; [done|].
  intros [Hc Hs]%andb_true_iff. rewrite (IH Hs), Hc. done.
Qed.

Lemma rstrip_nil_blank s : rstrip s = [] -> blank s = true.
Proof.
  induction s as [|c s IH]; simpl; [done|].
  destruct (rstrip s) eqn:E; [|done].
  destruct (Py_UNICODE_ISSPACE c); [|done]. intros _. by rewrite IH.
Qed.

Lemma lstrip_nil_blank s : lstrip s = [] -> blank s = true.
Proof.
  induction s as [|c s IH]; simpl; [done|].
  destruct (Py_UNICODE_ISSPACE c); [auto | done].
Qed.

Lemma strip_blank s : blank s = true -> strip s = [].
Proof. intros H. unfold strip. by rewrite lstrip_blank. Qed.

Lemma strip_nil_blank s : strip s = [] -> blank s = true.
Proof.
  unfold strip. intros H%rstrip_nil_blank.
  induction s as [|c s IH]; simpl in *; [done|].
  destruct (Py_UNICODE_ISSPACE c) eqn:Hc; simpl; [auto|].
  simpl in H. by rewrite Hc in H.
Qed.

Lemma lstrip_app_blank_l a b : blank a = true -> lstrip (a ++ b) = lstrip b.
Proof.
  induction a as [|c a IH]; simpl; [done|].
  intros [Hc Ha]%andb_true_iff. rewrite Hc. auto.
Qed.

Lemma lstrip_app_not_blank a b : blank a = false -> lstrip (a ++ b) = lstrip a ++ b.
Proof.
  induction a as [|c a IH]; simpl; [done|].
  destruct (Py_UNICODE_ISSPACE c); simpl; [auto | done].
Qed.

Lemma rstrip_app_blank_r a b : blank b = true -> rstrip (a ++ b) = rstrip a.
Proof.
  intros Hb. induction a as [|c a IH]; simpl.
  - by apply rstrip_blank.
  - by rewrite IH.
Qed.

Lemma strip_app_blank_l a b : blank a = true -> strip (a ++ b) = strip b.
Proof. intros H. unfold strip. by rewrite lstrip_app_blank_l. Qed.

Lemma strip_app_blank_r a b : blank b = true -> strip (a ++ b) = strip a.
Proof.
  intros Hb. unfold strip. destruct (blank a) eqn:Ha.
  - rewrite lstrip_app_blank_l by done.
    by rewrite !lstrip_blank.
  - rewrite lstrip_app_not_blank by done. by apply rstrip_app_blank_r.
Qed.

Lemma lstrip_fixed c s : Py_UNICODE_ISSPACE c = false -> lstrip (c :: s) = c :: s.
Proof. simpl. by intros ->. Qed.

Lemma rstrip_head c s : Py_UNICODE_ISSPACE c = false -> rstrip (c :: s) = c :: rstrip s.
Proof. simpl. intros ->. by destruct (rstrip s). Qed.

Lemma rstrip_idem s : rstrip (rstrip s) = rstrip s.
Proof.
  induction s as [|c s IH]; simpl; [done|].
  destruct (rstrip s) as [|d r] eqn:E.
  - destruct (Py_UNICODE_ISSPACE c) eqn:Hc; simpl; [done|]. by rewrite Hc.
  - change (rstrip (c :: d :: r) = c :: d :: r). simpl.
    simpl in IH. destruct (rstrip r) eqn:E'.
    + destruct (Py_UNICODE_ISSPACE d); [done|]. by inversion IH.
    + by inversion IH.
Qed.

Lemma lstrip_head s : lstrip s = [] \/ exists c r, lstrip s = c :: r /\ Py_UNICODE_ISSPACE c = false.
Proof.
  induction s as [|c s IH]; simpl; [by left|].
  destruct (Py_UNICODE_ISSPACE c) eqn:Hc; [done|]. right. eauto.
Qed.

Lemma strip_idem s : strip (strip s) = strip s.
Proof.
  unfold strip. destruct (lstrip_head s) as [-> | (c & r & -> & Hc)]; [done|].
  rewrite rstrip_head by done. rewrite lstrip_fixed by done.
  rewrite rstrip_head by done. by rewrite rstrip_idem.
Qed.

Lemma Forall_lstrip (P : N -> Prop) s : Forall P s -> Forall P (lstrip s).
Proof.
  induction 1 as [|c s Hc Hs IH]; simpl; [done|].
  destruct (Py_UNICODE_ISSPACE c); [done | by constructor].
Qed.

Lemma Forall_rstrip (P : N -> Prop) s : Forall P s -> Forall P (rstrip s).
Proof.
  induction 1 as [|c s Hc Hs IH]; simpl; [done|].
  destruct (rstrip s); [destruct (Py_UNICODE_ISSPACE c); auto | auto].
Qed.

Lemma Forall_strip (P : N -> Prop) s : Forall P s -> Forall P (strip s).
Proof. intros. by apply Forall_rstrip, Forall_lstrip. Qed.

Lemma truthy_false s : truthy s = false <-> s = [].
Proof. by destruct s. Qed.

Lemma truthy_true s : truthy s = true <-> s <> [].
Proof. by destruct s. Qed.
End text_lemmas.

(** *** Lines of a text *)

Section line_lemmas.
Import Spec.

Lemma split_into_lines_cons s : exists l ls, split_into_lines s = l :: ls.
Proof.
  induction s as [|c s (l & ls & IH)]; simpl; [eauto|].
  destruct (Py_UNICODE_ISLINEBREAK c); [eauto|]. rewrite IH. eauto.
Qed.

Lemma split_into_lines_head s :
  split_into_lines s = head_line s :: tail (split_into_lines s).
Proof. unfold head_line. by destruct (split_into_lines_cons s) as (l & ls & ->). Qed.

Lemma split_into_lines_last s :
  split_into_lines s = removelast (split_into_lines s) ++ [tail_line s].
Proof.
  unfold tail_line. apply app_removelast_last.
  by destruct (split_into_lines_cons s) as (l & ls & ->).
Qed.

Lemma split_into_lines_app x y :
  split_into_lines (x ++ y) =
  removelast (split_into_lines x) ++ (tail_line x ++ head_line y) :: tail (split_into_lines y).
Proof.
  unfold tail_line. induction x as [|c x IH].
  - simpl. apply split_into_lines_head.
  - change ((c :: x) ++ y) with (c :: (x ++ y)).
    cbn [split_into_lines]. rewrite IH. clear IH.
    destruct (split_into_lines_cons x) as (l & ls & ->).
    destruct (Py_UNICODE_ISLINEBREAK c).
    + done.
    + destruct ls as [|l2 ls]; done.
Qed.

Lemma split_into_lines_no_break s :
  Forall (Forall (fun c => Py_UNICODE_ISLINEBREAK c = false)) (split_into_lines s).
Proof.
  induction s as [|c s IH]; simpl; [by repeat constructor|].
  destruct (Py_UNICODE_ISLINEBREAK c) eqn:Hc; [by constructor|].
  destruct (split_into_lines s) as [|l ls]; [by repeat constructor|].
  inversion IH; subst. constructor; [by constructor | done].
Qed.

Lemma split_into_lines_blank s :
  blank s = true -> Forall (fun l => blank l = true) (split_into_lines s).
Proof.
  induction s as [|c s IH]; simpl; [by repeat constructor|].
  intros [Hc Hs]%andb_true_iff. specialize (IH Hs).
  destruct (Py_UNICODE_ISLINEBREAK c); [by constructor|].
  destruct (split_into_lines s) as [|l ls]; [constructor; [simpl; by rewrite Hc | done]|].
  inversion IH; subst. constructor; [|done]. simpl. by rewrite Hc.
Qed.

Lemma split_into_lines_one s :
  Forall (fun c => Py_UNICODE_ISLINEBREAK c = false) s -> split_into_lines s = [s].
Proof.
  induction 1 as [|c s Hc Hs IH]; simpl; [done|]. by rewrite Hc, IH.
Qed.

Lemma split_into_lines_first k c rest :
  Forall (fun c => Py_UNICODE_ISLINEBREAK c = false) k ->
  Py_UNICODE_ISLINEBREAK c = true ->
  split_into_lines (k ++ c :: rest) = k :: split_into_lines rest.
Proof.
  intros Hk Hc. induction Hk as [|d k Hd Hk IH]; simpl.
  - by rewrite Hc.
  - by rewrite Hd, IH.
Qed.

Lemma blank_head_line s : blank s = true -> blank (head_line s) = true.
Proof.
  intros H%split_into_lines_blank. rewrite split_into_lines_head in H.
  by inversion H.
Qed.

Lemma blank_tail_line s : blank s = true -> blank (tail_line s) = true.
Proof.
  intros H%split_into_lines_blank. rewrite split_into_lines_last in H.
  apply Forall_app in H as [_ H]. by inversion H.
Qed.

(** *** The comprehension *)

Lemma stripped_nonblank_app l1 l2 :
  stripped_nonblank (l1 ++ l2) = stripped_nonblank l1 ++ stripped_nonblank l2.
Proof.
  induction l1 as [|l l1 IH]; simpl; [done|].
  destruct (truthy (strip l)); simpl; by rewrite IH.
Qed.

Lemma stripped_nonblank_filter_map ls :
  stripped_nonblank ls =
  List.map strip (List.filter (fun l => negb (empty_after_trim l)) ls).
Proof.
  unfold empty_after_trim. induction ls as [|l ls IH]; simpl; [done|].
  rewrite negb_involutive. destruct (truthy (strip l)); simpl; by rewrite IH.
Qed.

Lemma stripped_nonblank_one_blank l : blank l = true -> stripped_nonblank [l] = [].
Proof. intros H. simpl. by rewrite strip_blank. Qed.

Lemma stripped_nonblank_all_blank ls :
  Forall (fun l => blank l = true) ls -> stripped_nonblank ls = [].
Proof.
  induction 1 as [|l ls Hl Hls IH]; simpl; [done|]. by rewrite strip_blank.
Qed.

Lemma stripped_nonblank_fixed ks :
  Forall (fun k => strip k = k /\ k <> []) ks -> stripped_nonblank ks = ks.
Proof.
  induction 1 as [|k ks [Hk Hne] Hks IH]; simpl; [done|].
  rewrite Hk, IH. by destruct k.
Qed.

(** Every line kept by the comprehension is trimmed, not empty, and free of
    line boundaries when the lines it came from were. *)
Lemma stripped_nonblank_shape ls :
  Forall (Forall (fun c => Py_UNICODE_ISLINEBREAK c = false)) ls ->
  Forall (fun k => Forall (fun c => Py_UNICODE_ISLINEBREAK c = false) k
                   /\ strip k = k /\ k <> []) (stripped_nonblank ls).
Proof.
  induction 1 as [|l ls Hl Hls IH]; simpl; [done|].
  destruct (truthy (strip l)) eqn:E; [|done].
  constructor; [|done]. split_and!.
  - by apply Forall_strip.
  - apply strip_idem.
  - by apply truthy_true.
Qed.

(** *** [splitlines] against the plain split *)

Lemma splitlines_from_LF rest :
  splitlines_from [] (10%N :: rest) = [] :: splitlines_from [] rest.
Proof. simpl. by destruct rest. Qed.

Lemma stripped_nonblank_splitlines_from line s :
  stripped_nonblank (splitlines_from line s) =
  stripped_nonblank ((line ++ head_line s) :: tail (split_into_lines s)).
Proof.
  unfold head_line. revert line. induction s as [|c rest IH]; intros line.
  - simpl. rewrite app_nil_r. destruct line; done.
  - cbn [splitlines_from split_into_lines].
    destruct (Py_UNICODE_ISLINEBREAK c) eqn:Hc.
    + cbn [hd tail]. rewrite app_nil_r.
      change (?l :: ?ls) with ([l] ++ ls). rewrite !stripped_nonblank_app. f_equal.
      assert (stripped_nonblank (splitlines_from [] rest)
              = stripped_nonblank (split_into_lines rest)) as Hrest.
      { rewrite IH. simpl. by destruct (split_into_lines_cons rest) as (l & ls & ->). }
      destruct rest as [|d rest']; [done|].
      destruct ((c =? 13)%N && (d =? 10)%N) eqn:Hcr; [|done].
      apply andb_true_iff in Hcr as [_ ->%N.eqb_eq].
      rewrite <- Hrest, splitlines_from_LF. done.
    + rewrite IH. destruct (split_into_lines_cons rest) as (l & ls & ->).
      cbn [hd tail]. by rewrite <- app_assoc.
Qed.

Lemma stripped_nonblank_splitlines s :
  stripped_nonblank (splitlines s) = stripped_nonblank (split_into_lines s).
Proof.
  unfold splitlines. rewrite stripped_nonblank_splitlines_from.
  rewrite app_nil_l. by rewrite <- split_into_lines_head.
Qed.

Lemma clean_content_lines s :
  clean_content s = join LF (stripped_nonblank (split_into_lines s)).
Proof. unfold clean_content. by rewrite stripped_nonblank_splitlines. Qed.

(** *** Concatenation at a line edge *)

Lemma kept_lines_app x y :
  stripped_nonblank (split_into_lines (x ++ y)) =
  stripped_nonblank (removelast (split_into_lines x))
  ++ stripped_nonblank [tail_line x ++ head_line y]
  ++ stripped_nonblank (tail (split_into_lines y)).
Proof.
  rewrite split_into_lines_app, stripped_nonblank_app.
  f_equal. apply (stripped_nonblank_app [_]).
Qed.

Lemma kept_lines_last x :
  stripped_nonblank (split_into_lines x) =
  stripped_nonblank (removelast (split_into_lines x)) ++ stripped_nonblank [tail_line x].
Proof. rewrite <- stripped_nonblank_app. f_equal. apply split_into_lines_last. Qed.

Lemma kept_lines_head y :
  stripped_nonblank (split_into_lines y) =
  stripped_nonblank [head_line y] ++ stripped_nonblank (tail (split_into_lines y)).
Proof. rewrite <- stripped_nonblank_app. f_equal. apply split_into_lines_head. Qed.

Lemma stripped_nonblank_one_app_l a b :
  blank a = true -> stripped_nonblank [a ++ b] = stripped_nonblank [b].
Proof. intros H. cbn [stripped_nonblank]. by rewrite strip_app_blank_l. Qed.

Lemma stripped_nonblank_one_app_r a b :
  blank b = true -> stripped_nonblank [a ++ b] = stripped_nonblank [a].
Proof. intros H. cbn [stripped_nonblank]. by rewrite strip_app_blank_r. Qed.

Lemma kept_lines_app_start x y :
  at_line_start x = true ->
  stripped_nonblank (split_into_lines (x ++ y)) =
  stripped_nonblank (split_into_lines x) ++ stripped_nonblank (split_into_lines y).
Proof.
  unfold at_line_start. intros Hx.
  rewrite kept_lines_app, (kept_lines_last x), (kept_lines_head y).
  rewrite stripped_nonblank_one_app_l by done.
  by rewrite (stripped_nonblank_one_blank _ Hx), app_nil_r.
Qed.

Lemma kept_lines_app_end x y :
  at_line_end y = true ->
  stripped_nonblank (split_into_lines (x ++ y)) =
  stripped_nonblank (split_into_lines x) ++ stripped_nonblank (split_into_lines y).
Proof.
  unfold at_line_end. intros Hy.
  rewrite kept_lines_app, (kept_lines_last x), (kept_lines_head y).
  rewrite stripped_nonblank_one_app_r by done.
  by rewrite (stripped_nonblank_one_blank _ Hy), app_assoc.
Qed.

Lemma kept_lines_blank ws :
  blank ws = true -> stripped_nonblank (split_into_lines ws) = [].
Proof. intros H. by apply stripped_nonblank_all_blank, split_into_lines_blank. Qed.

Lemma kept_lines_insert x ws y :
  blank ws = true -> at_line_start x = true \/ at_line_end y = true ->
  stripped_nonblank (split_into_lines (x ++ ws ++ y)) =
  stripped_nonblank (split_into_lines (x ++ y)).
Proof.
  intros Hws [Hx | Hy].
  - rewrite !(kept_lines_app_start x) by done.
    rewrite (kept_lines_app_start ws) by (by apply blank_tail_line).
    by rewrite (kept_lines_blank ws).
  - rewrite app_assoc. rewrite !(kept_lines_app_end _ y) by done.
    rewrite (kept_lines_app_end x ws) by (by apply blank_head_line).
    by rewrite (kept_lines_blank ws), app_nil_r.
Qed.

Lemma clean_content_insert x ws y :
  blank ws = true -> at_line_start x = true \/ at_line_end y = true ->
  clean_content (x ++ ws ++ y) = clean_content (x ++ y).
Proof. intros. rewrite !clean_content_lines. by rewrite kept_lines_insert. Qed.

Lemma whitespace_edit_clean T T' :
  whitespace_edit T T' -> clean_content T' = clean_content T.
Proof.
  destruct 1 as [pre post b Hp Hb | pre post b Hp Hb | pre post ws Hp Hw | pre post ws Hp Hw];
    apply clean_content_insert; auto; rewrite blank_app, Hb; done.
Qed.

(** *** Lines joined again *)

Lemma kept_lines_join ks :
  Forall (fun k => Forall (fun c => Py_UNICODE_ISLINEBREAK c = false) k
                   /\ strip k = k /\ k <> []) ks ->
  stripped_nonblank (split_into_lines (join LF ks)) = ks.
Proof.
  induction 1 as [|k ks (Hk & Hs & Hne) Hks IH]; [done|].
  destruct ks as [|k2 ks].
  - simpl. rewrite split_into_lines_one by done.
    apply stripped_nonblank_fixed. by repeat constructor.
  - change (join LF (k :: k2 :: ks)) with (k ++ 10%N :: join LF (k2 :: ks)).
    rewrite split_into_lines_first by done.
    cbn [stripped_nonblank]. rewrite Hs, IH. by destruct k.
Qed.
End line_lemmas.

(** * Sample runs *)

Example splitlines_crlf :
  splitlines (py "a" ++ [13%N; 10%N] ++ py "b" ++ LF) = [py "a"; py "b"].
Proof. reflexivity. Qed.

Example splitlines_keeps_empty_lines :
  splitlines (LF ++ LF ++ py "a") = [[]; []; py "a"].
Proof. reflexivity. Qed.

Example strip_sample : strip (py "  a b" ++ [9%N; 160%N]) = py "a b".
Proof. reflexivity. Qed.

Example clean_content_sample :
  clean_content (py "  a " ++ LF ++ LF ++ [9%N] ++ py "b" ++ [13%N; 10%N])
  = py "a" ++ LF ++ py "b".
Proof. reflexivity. Qed.

(** Every line boundary of [splitlines] ends a line, a lone carriage return
    too; the normalized text has a line feed in its place. *)
Example clean_content_lone_carriage_return :
  clean_content (py "a" ++ [13%N] ++ py "b") = py "a" ++ LF ++ py "b".
Proof. reflexivity. Qed.

Example template_is_normalized :
  clean_content EXPECTED_MIT_CONTENT = EXPECTED_MIT_CONTENT.
Proof. vm_compute. reflexivity. Qed.

(** The template with two spaces behind every line and an empty line after
    it normalizes to the template. *)
Example template_with_extra_white_space :
  clean_content (join (py "  " ++ LF ++ LF) (splitlines EXPECTED_MIT_CONTENT))
  = clean_content EXPECTED_MIT_CONTENT.
Proof. vm_compute. reflexivity. Qed.

Example template_base64_round_trip :
  base64.b64decode (PyStr (base64.b2a_base64 EXPECTED_MIT_CONTENT))
  = inr EXPECTED_MIT_CONTENT.
Proof. vm_compute. reflexivity. Qed.

Example b64decode_sample :
  base64.b64decode (PyStr (py "TUlU" ++ LF ++ py "IExpY2Vuc2U=")) = inr (py "MIT License").
Proof. vm_compute. reflexivity. Qed.

Example utf_8_decode_sample :
  codecs.utf_8_decode [228%N; 184%N; 173%N; 240%N; 159%N; 142%N; 137%N]
  = inr [20013%N; 127881%N].
Proof. vm_compute. reflexivity. Qed.

(** * The normalizer *)

(** C2: for every input string, [clean_content] equals the reference
    definition of the specification: split the input into lines, discard
    every line that is empty after trimming, trim each remaining line, and
    rejoin the survivors with a single newline, in their original order. *)
Theorem clean_content_refines_spec (s : pystr) :
  clean_content s = Spec.normalize s.
Proof.
  rewrite clean_content_lines. unfold Spec.normalize.
  by rewrite stripped_nonblank_filter_map.
Qed.

(** C3: the normalizer is idempotent: for every input string [s],
    [clean_content (clean_content s) = clean_content s]. *)
Theorem clean_content_idempotent (s : pystr) :
  clean_content (clean_content s) = clean_content s.
Proof.
  rewrite (clean_content_lines (clean_content s)).
  rewrite (clean_content_lines s).
  rewrite kept_lines_join; [done|].
  apply stripped_nonblank_shape, split_into_lines_no_break.
Qed.

(** C4: the normalizer is whitespace-insensitive: a text [T'] obtained from a
    text [T] by any number of edits, each inserting a blank line or adding
    leading or trailing white space to a line, normalizes to the same result
    as [T]. *)
Theorem clean_content_whitespace_insensitive (T T' : pystr) :
  rtc whitespace_edit T T' -> clean_content T' = clean_content T.
Proof.
  induction 1 as [T | T T1 T' Hstep _ IH]; [done|].
  rewrite IH. by apply whitespace_edit_clean.
Qed.

(** * The checker *)

Ltac run_step :=
  cbn -[py str_mul _get_license_content _call_github_api clean_content
        EXPECTED_MIT_CONTENT slice_to].

Section api_lemmas.
Context (w : World) (endpoint : pystr) (headers : gmap pystr pystr) (org repo : pystr).

Let url := api_url org repo endpoint.

Lemma call_api_request_raises e :
  server w url headers = inl e -> is_Exception e = true ->
  _call_github_api w endpoint headers org repo =
  ([HttpGet url headers; Stderr (diag_api_exception endpoint (exn_str e))],
   Returned (false, PyNone)).
Proof.
  intros Hs He. unfold _call_github_api, requests.get.
  fold (api_url org repo endpoint). fold url. rewrite Hs. run_step. by rewrite He.
Qed.

Lemma call_api_interrupted e :
  server w url headers = inl e -> is_Exception e = false ->
  _call_github_api w endpoint headers org repo = ([HttpGet url headers], Raised e).
Proof.
  intros Hs He. unfold _call_github_api, requests.get.
  fold (api_url org repo endpoint). fold url. rewrite Hs. run_step. by rewrite He.
Qed.

Lemma call_api_response_malformed response e :
  server w url headers = inr response -> status_code response = 200%Z ->
  json response = inl e -> is_Exception e = true ->
  _call_github_api w endpoint headers org repo =
  ([HttpGet url headers; ResponseJson; Stderr (diag_api_exception endpoint (exn_str e))],
   Returned (false, PyNone)).
Proof.
  intros Hs H200 Hj He. unfold _call_github_api, requests.get, requests.response_json.
  fold (api_url org repo endpoint). fold url. rewrite Hs. run_step.
  rewrite H200, Hj. run_step. by rewrite He.
Qed.

Lemma call_api_ok response body :
  server w url headers = inr response -> status_code response = 200%Z ->
  json response = inr body ->
  _call_github_api w endpoint headers org repo =
  ([HttpGet url headers; ResponseJson], Returned (true, body)).
Proof.
  intros Hs H200 Hj. unfold _call_github_api, requests.get, requests.response_json.
  fold (api_url org repo endpoint). fold url. rewrite Hs. run_step.
  by rewrite H200, Hj.
Qed.

Lemma call_api_not_found response :
  server w url headers = inr response -> status_code response = 404%Z ->
  _call_github_api w endpoint headers org repo =
  ([HttpGet url headers; Stderr (diag_api_not_found endpoint)], Returned (false, PyNone)).
Proof.
  intros Hs H404. unfold _call_github_api, requests.get.
  fold (api_url org repo endpoint). fold url. rewrite Hs. run_step.
  by rewrite H404.
Qed.

Lemma call_api_other_status response :
  server w url headers = inr response ->
  status_code response <> 200%Z -> status_code response <> 404%Z ->
  _call_github_api w endpoint headers org repo =
  ([HttpGet url headers; Stderr (diag_api_status endpoint (status_code response))],
   Returned (false, PyNone)).
Proof.
  intros Hs H200%Z.eqb_neq H404%Z.eqb_neq. unfold _call_github_api, requests.get.
  fold (api_url org repo endpoint). fold url. rewrite Hs. run_step.
  by rewrite H200, H404.
Qed.
End api_lemmas.

Section fetch_lemmas.
Context (w : World).

(** The call of line 50 is made with the arguments that [answer] names. *)
Lemma fetch_failed t :
  _call_github_api w license_endpoint (request_headers w) (default [] (github_org w))
    (py "project-x") = (t, Returned (false, PyNone)) ->
  fetch w = (t, Returned None).
Proof.
  intros H. unfold fetch, _get_license_content. fold license_endpoint.
  rewrite H. run_step. by rewrite app_nil_r.
Qed.

Lemma fetch_request_raises e :
  answer w = inl e -> is_Exception e = true ->
  fetch w = ([HttpGet (license_url w) (request_headers w);
              Stderr (diag_api_exception license_endpoint (exn_str e))], Returned None).
Proof. intros Ha He. apply fetch_failed. by apply call_api_request_raises. Qed.

Lemma fetch_response_malformed response e :
  answer w = inr response -> status_code response = 200%Z ->
  json response = inl e -> is_Exception e = true ->
  fetch w = ([HttpGet (license_url w) (request_headers w); ResponseJson;
              Stderr (diag_api_exception license_endpoint (exn_str e))], Returned None).
Proof. intros Ha Hs Hj He. apply fetch_failed. by eapply call_api_response_malformed. Qed.

Lemma fetch_not_found response :
  answer w = inr response -> status_code response = 404%Z ->
  fetch w = ([HttpGet (license_url w) (request_headers w);
              Stderr (diag_api_not_found license_endpoint)], Returned None).
Proof. intros Ha Hs. apply fetch_failed. by eapply call_api_not_found. Qed.

Lemma fetch_other_status response :
  answer w = inr response ->
  status_code response <> 200%Z -> status_code response <> 404%Z ->
  fetch w = ([HttpGet (license_url w) (request_headers w);
              Stderr (diag_api_status license_endpoint (status_code response))],
             Returned None).
Proof. intros Ha H1 H2. apply fetch_failed. by eapply call_api_other_status. Qed.

Lemma fetch_falsy response body :
  answer w = inr response -> status_code response = 200%Z ->
  json response = inr body -> truth body = false ->
  fetch w = ([HttpGet (license_url w) (request_headers w); ResponseJson], Returned None).
Proof.
  intros Ha Hs Hj Hb. unfold fetch, _get_license_content. fold license_endpoint.
  rewrite (call_api_ok _ _ _ _ _ _ _ Ha Hs Hj). run_step. by rewrite Hb.
Qed.

Lemma fetch_decoded response body content raw text :
  answer w = inr response -> status_code response = 200%Z ->
  json response = inr body -> truth body = true ->
  get_method body (py "content") (PyStr []) = inr content ->
  base64.b64decode content = inr raw ->
  codecs.utf_8_decode raw = inr text ->
  fetch w = ([HttpGet (license_url w) (request_headers w); ResponseJson;
              B64Decode content; BytesDecode raw], Returned (Some text)).
Proof.
  intros Ha Hs Hj Hb Hg H64 Hu. unfold fetch, _get_license_content. fold license_endpoint.
  rewrite (call_api_ok _ _ _ _ _ _ _ Ha Hs Hj). run_step. rewrite Hb. run_step.
  unfold b64decode, decode_utf_8. rewrite Hg. run_step. rewrite H64. run_step.
  by rewrite Hu.
Qed.
End fetch_lemmas.

Lemma configured_settings w :
  configured w = true ->
  exists token org, github_token w = Some token /\ github_org w = Some org
                    /\ truthy token = true /\ truthy org = true.
Proof.
  unfold configured. intros [Ht Ho]%andb_true_iff.
  destruct (github_token w) as [token|] eqn:Et; [|done].
  destruct (github_org w) as [org|] eqn:Eo; [|done].
  exists token, org. done.
Qed.

Lemma stderr_of_app t1 t2 : stderr_of (t1 ++ t2) = stderr_of t1 ++ stderr_of t2.
Proof. apply omap_app. Qed.

(** C4, at a sample: "a\nb" against "a \n\n  b". *)
Lemma clean_content_whitespace_insensitive_witness :
  rtc whitespace_edit sample_text sample_text_edited
  /\ clean_content sample_text_edited = clean_content sample_text.
Proof.
  assert (rtc whitespace_edit sample_text sample_text_edited) as H.
  { eapply rtc_l; [apply (trailing_space [97%N] [10%N; 98%N] [32%N]); reflexivity|].
    eapply rtc_l; [apply (blank_line_before [97%N; 32%N; 10%N] [98%N] []); reflexivity|].
    eapply rtc_l; [apply (leading_space [97%N; 32%N; 10%N; 10%N] [98%N] [32%N; 32%N]); reflexivity|].
    apply rtc_refl. }
  split; [exact H|]. exact (clean_content_whitespace_insensitive _ _ H).
Defined.

(** ** The transport's exceptions *)

(** C8: every exception of class [Exception] that the HTTP request or the
    parsing of the response raises (connection failure, timeout, DNS failure,
    malformed response) is caught by [_call_github_api]: the call returns the
    failure value [(False, None)] after writing a diagnostic that carries the
    exception's message; nothing propagates to the caller. *)
Theorem call_github_api_catches (w : World) (endpoint : pystr)
    (headers : gmap pystr pystr) (org repo : pystr) (e : exn) :
  is_Exception e = true ->
  transport_failure w (api_url org repo endpoint) headers e ->
  outcome_of (_call_github_api w endpoint headers org repo) = Returned (false, PyNone)
  /\ stderr_of (trace_of (_call_github_api w endpoint headers org repo)) =
     [py "[API 异常] 调用 " ++ endpoint ++ py " 失败：" ++ exn_str e ++ py "，请检查网络连接"].
Proof.
  intros He [Hs | response Hs H200 Hj].
  - by rewrite (call_api_request_raises w endpoint headers org repo e Hs He).
  - by rewrite (call_api_response_malformed w endpoint headers org repo response e Hs H200 Hj He).
Qed.

Lemma call_github_api_catches_witness :
  is_Exception (Exn ConnectionError (py "Max retries exceeded")) = true
  /\ transport_failure world_offline
       (api_url (py "octo-org") (py "project-x") license_endpoint)
       (request_headers world_offline) (Exn ConnectionError (py "Max retries exceeded"))
  /\ outcome_of (_call_github_api world_offline license_endpoint
                   (request_headers world_offline) (py "octo-org") (py "project-x"))
     = Returned (false, PyNone)
  /\ stderr_of (trace_of (_call_github_api world_offline license_endpoint
                   (request_headers world_offline) (py "octo-org") (py "project-x"))) =
     [py "[API 异常] 调用 " ++ license_endpoint ++ py " 失败：" ++ py "Max retries exceeded"
      ++ py "，请检查网络连接"].
Proof.
  assert (is_Exception (Exn ConnectionError (py "Max retries exceeded")) = true) as He
    by reflexivity.
  assert (transport_failure world_offline
            (api_url (py "octo-org") (py "project-x") license_endpoint)
            (request_headers world_offline)
            (Exn ConnectionError (py "Max retries exceeded"))) as Ht
    by (apply request_raises; reflexivity).
  split; [exact He|]. split; [exact Ht|].
  exact (call_github_api_catches world_offline license_endpoint
           (request_headers world_offline) (py "octo-org") (py "project-x") _ He Ht).
Defined.

(** * Further properties of the normalizer *)

Section normalizer_lemmas.
Import Spec.

Lemma splitlines_from_no_break line k rest :
  Forall (fun c => Py_UNICODE_ISLINEBREAK c = false) k ->
  splitlines_from line (k ++ rest) = splitlines_from (line ++ k) rest.
Proof.
  intros Hk. revert line. induction Hk as [|c k Hc Hk IH]; intros line.
  - by rewrite app_nil_r.
  - cbn [app splitlines_from]. rewrite Hc, IH. by rewrite <- app_assoc.
Qed.

Lemma splitlines_from_line_feed line rest :
  splitlines_from line (10%N :: rest) = line :: splitlines_from [] rest.
Proof. simpl. by destruct rest. Qed.

Lemma splitlines_join ks :
  Forall (fun k => Forall (fun c => Py_UNICODE_ISLINEBREAK c = false) k
                   /\ strip k = k /\ k <> []) ks ->
  splitlines (join LF ks) = ks.
Proof.
  unfold splitlines. induction 1 as [|k ks (Hk & _ & Hne) Hks IH]; [done|].
  destruct ks as [|k2 ks].
  - cbn [join]. rewrite <- (app_nil_r k), splitlines_from_no_break by done.
    rewrite app_nil_r. by destruct k.
  - change (join LF (k :: k2 :: ks)) with (k ++ 10%N :: join LF (k2 :: ks)).
    rewrite splitlines_from_no_break by done.
    by rewrite splitlines_from_line_feed, IH.
Qed.

Lemma kept_lines_shape s :
  Forall (fun k => Forall (fun c => Py_UNICODE_ISLINEBREAK c = false) k
                   /\ strip k = k /\ k <> [])
    (stripped_nonblank (split_into_lines s)).
Proof. apply stripped_nonblank_shape, split_into_lines_no_break. Qed.

Lemma join_nil_inv ks :
  Forall (fun k : pystr => k <> []) ks -> join LF ks = [] -> ks = [].
Proof.
  destruct 1 as [|k ks Hk Hks]; [done|]. destruct ks; simpl; [done|].
  by destruct k.
Qed.

Lemma stripped_nonblank_nil_inv ls :
  stripped_nonblank ls = [] -> Forall (fun l => blank l = true) ls.
Proof.
  induction ls as [|l ls IH]; simpl; [done|].
  destruct (truthy (strip l)) eqn:E; [done|].
  intros H. constructor; [|auto]. by apply strip_nil_blank, truthy_false.
Qed.

Lemma blank_of_lines s :
  Forall (fun l => blank l = true) (split_into_lines s) -> blank s = true.
Proof.
  induction s as [|c s IH]; simpl; [done|].
  destruct (Py_UNICODE_ISLINEBREAK c) eqn:Hc.
  - intros H. inversion H; subst. rewrite (linebreak_is_space c Hc). auto.
  - destruct (split_into_lines_cons s) as (l & ls & E). rewrite E in *.
    intros H. inversion H as [|? ? Hl Hls]; subst. simpl in Hl.
    apply andb_true_iff in Hl as [-> Hl]. apply IH. by constructor.
Qed.

Lemma non_space_app a b : non_space (a ++ b) = non_space a ++ non_space b.
Proof. unfold non_space. apply List.filter_app. Qed.

Lemma non_space_blank s : blank s = true -> non_space s = [].
Proof.
  induction s as [|c s IH]; simpl; [done|].
  intros [-> Hs]%andb_true_iff. simpl. auto.
Qed.

Lemma non_space_lstrip s : non_space (lstrip s) = non_space s.
Proof.
  induction s as [|c s IH]; simpl; [done|].
  destruct (Py_UNICODE_ISSPACE c) eqn:Hc; simpl; [done|]. by rewrite Hc.
Qed.

Lemma non_space_rstrip s : non_space (rstrip s) = non_space s.
Proof.
  induction s as [|c s IH]; simpl; [done|].
  destruct (rstrip s) as [|d r] eqn:E.
  - destruct (Py_UNICODE_ISSPACE c) eqn:Hc; simpl; rewrite ?Hc; simpl; by rewrite <- IH.
  - change (non_space (c :: d :: r)) with (non_space ([c] ++ d :: r)).
    rewrite non_space_app, IH. simpl. by destruct (Py_UNICODE_ISSPACE c).
Qed.

Lemma non_space_strip s : non_space (strip s) = non_space s.
Proof. unfold strip. by rewrite non_space_rstrip, non_space_lstrip. Qed.

Lemma non_space_join ks : non_space (join LF ks) = concat (List.map non_space ks).
Proof.
  induction ks as [|k ks IH]; [done|]. destruct ks as [|k2 ks].
  - simpl. by rewrite app_nil_r.
  - change (join LF (k :: k2 :: ks)) with (k ++ LF ++ join LF (k2 :: ks)).
    rewrite !non_space_app, IH. done.
Qed.

Lemma non_space_kept ls :
  concat (List.map non_space (stripped_nonblank ls)) = concat (List.map non_space ls).
Proof.
  induction ls as [|l ls IH]; simpl; [done|].
  destruct (truthy (strip l)) eqn:E; simpl.
  - by rewrite non_space_strip, IH.
  - rewrite IH. apply truthy_false, strip_nil_blank, non_space_blank in E. by rewrite E.
Qed.

Lemma non_space_lines s :
  concat (List.map non_space (split_into_lines s)) = non_space s.
Proof.
  induction s as [|c s IH]; simpl; [done|].
  destruct (Py_UNICODE_ISLINEBREAK c) eqn:Hc.
  - rewrite (linebreak_is_space c Hc). simpl. done.
  - destruct (split_into_lines_cons s) as (l & ls & E). rewrite E in *. simpl in *.
    destruct (Py_UNICODE_ISSPACE c); simpl; by rewrite IH.
Qed.

Lemma kept_lines_line_break x c y :
  Py_UNICODE_ISLINEBREAK c = true ->
  stripped_nonblank (split_into_lines (x ++ c :: y)) =
  stripped_nonblank (split_into_lines x) ++ stripped_nonblank (split_into_lines y).
Proof.
  intros Hc. rewrite kept_lines_app_end.
  - f_equal. simpl. rewrite Hc. simpl. done.
  - unfold at_line_end, head_line. simpl. by rewrite Hc.
Qed.

Lemma kept_lines_clean s :
  stripped_nonblank (split_into_lines (clean_content s)) =
  stripped_nonblank (split_into_lines s).
Proof. rewrite clean_content_lines. apply kept_lines_join, kept_lines_shape. Qed.
End normalizer_lemmas.

(** X1: the lines of the normalized text are exactly the trimmed non-blank
    lines of the input, in order; none of them is empty or has white space at
    either end. *)
Theorem clean_content_lines_are_kept_lines (s : pystr) :
  splitlines (clean_content s) = stripped_nonblank (splitlines s)
  /\ Forall (fun k => k <> [] /\ strip k = k) (splitlines (clean_content s)).
Proof.
  assert (splitlines (clean_content s) = stripped_nonblank (splitlines s)) as H.
  { rewrite clean_content_lines, stripped_nonblank_splitlines.
    apply splitlines_join, kept_lines_shape. }
  split; [done|]. rewrite H, stripped_nonblank_splitlines.
  eapply Forall_impl; [apply kept_lines_shape|]. by intros k (_ & ? & ?).
Qed.

(** X2: the normalized text is empty exactly when the input consists of
    white space only (the empty input included). *)
Theorem clean_content_empty_iff_blank (s : pystr) :
  clean_content s = [] <-> blank s = true.
Proof.
  rewrite clean_content_lines. split.
  - intros H. apply blank_of_lines, stripped_nonblank_nil_inv.
    apply join_nil_inv; [|done].
    eapply Forall_impl; [apply kept_lines_shape|]. by intros k (_ & _ & ?).
  - intros H. by rewrite kept_lines_blank.
Qed.

(** X3: normalization removes and inserts white space only: the characters
    that are not white space are the same, in the same order, before and
    after. *)
Theorem clean_content_keeps_non_space (s : pystr) :
  non_space (clean_content s) = non_space s.
Proof.
  rewrite clean_content_lines, non_space_join, non_space_kept. apply non_space_lines.
Qed.

(** X4: normalization composes over lines: normalizing two texts put on
    separate lines gives the same result as normalizing each first. *)
Theorem clean_content_of_parts (x y : pystr) :
  clean_content (x ++ LF ++ y) = clean_content (clean_content x ++ LF ++ clean_content y)
  /\ clean_content (x ++ LF ++ y) =
     join LF (stripped_nonblank (splitlines x) ++ stripped_nonblank (splitlines y)).
Proof.
  rewrite !(clean_content_lines (_ ++ LF ++ _)).
  change (?a ++ LF ++ ?b) with (a ++ 10%N :: b).
  rewrite !kept_lines_line_break by done.
  rewrite !kept_lines_clean, !stripped_nonblank_splitlines. done.
Qed.

(** X5: every line boundary that [splitlines] knows, and the pair carriage
    return + line feed, normalizes like a single line feed. *)
Theorem clean_content_line_endings (x y : pystr) (c : N) :
  Py_UNICODE_ISLINEBREAK c = true ->
  clean_content (x ++ c :: y) = clean_content (x ++ LF ++ y)
  /\ clean_content (x ++ 13%N :: 10%N :: y) = clean_content (x ++ LF ++ y).
Proof.
  intros Hc. rewrite !clean_content_lines.
  change (x ++ LF ++ y) with (x ++ 10%N :: y).
  rewrite !kept_lines_line_break by done.
  split; reflexivity.
Qed.

Lemma clean_content_line_endings_witness :
  Py_UNICODE_ISLINEBREAK 8232%N = true
  /\ clean_content (py "a" ++ 8232%N :: py "b") = clean_content (py "a" ++ LF ++ py "b")
  /\ clean_content (py "a" ++ 13%N :: 10%N :: py "b") = clean_content (py "a" ++ LF ++ py "b").
Proof.
  assert (Py_UNICODE_ISLINEBREAK 8232%N = true) as H by reflexivity.
  split; [exact H|]. exact (clean_content_line_endings (py "a") (py "b") 8232%N H).
Defined.

(** * Further properties of the checker *)

Section library_exceptions.

Lemma get_method_raises_Exception body key dflt e :
  get_method body key dflt = inl e -> is_Exception e = true.
Proof. destruct body; simpl; intros [= <-]; done. Qed.

Lemma a2b_base64_loop_raises_Exception data :
  forall quad_pos leftchar pads out e,
    base64.a2b_base64_loop quad_pos leftchar pads out data = inl e ->
    is_Exception e = true.
Proof.
  induction data as [|c data IH]; intros quad_pos leftchar pads out e; cbn [base64.a2b_base64_loop].
  - repeat case_match; intros [= <-]; done.
  - repeat case_match; try done; apply IH.
Qed.

Lemma b64decode_raises_Exception v e :
  base64.b64decode v = inl e -> is_Exception e = true.
Proof.
  unfold base64.b64decode, base64.bytes_from_decode_data, base64.a2b_base64.
  destruct v; try (intros [= <-]; done).
  destruct (forallb _ s); [apply a2b_base64_loop_raises_Exception | intros [= <-]; done].
Qed.

Lemma utf_8_decode_at_raises_Exception raw :
  forall pos e, codecs.utf_8_decode_at pos raw = inl e -> is_Exception e = true.
Proof.
  induction raw as [raw IH] using (induction_ltof1 _ (@length N)). unfold ltof in IH.
  intros pos e. destruct raw as [|ch raw]; [done|]. cbn [codecs.utf_8_decode_at].
  repeat case_match; subst;
    try (intros [= <-]; done);
    unfold codecs.cons_char; (case_match; [|done]);
    intros [= <-];
    match goal with
    | E : codecs.utf_8_decode_at _ _ = inl _ |- _ => eapply IH; [|exact E]; simpl; lia
    end.
Qed.

Lemma decoded_text_raises_Exception body e :
  decoded_text body = inl e -> is_Exception e = true.
Proof.
  unfold decoded_text.
  destruct (get_method _ _ _) as [e1|content] eqn:Hg.
  { intros [= <-]. by eapply get_method_raises_Exception. }
  destruct (base64.b64decode content) as [e2|raw] eqn:H64.
  { intros [= <-]. by eapply b64decode_raises_Exception. }
  apply utf_8_decode_at_raises_Exception.
Qed.
End library_exceptions.

(** Every way [_call_github_api] can go. *)
Lemma call_api_cases w endpoint headers org repo :
  _call_github_api w endpoint headers org repo =
  match server w (api_url org repo endpoint) headers with
  | inl e =>
      if is_Exception e
      then ([HttpGet (api_url org repo endpoint) headers;
             Stderr (diag_api_exception endpoint (exn_str e))], Returned (false, PyNone))
      else ([HttpGet (api_url org repo endpoint) headers], Raised e)
  | inr response =>
      if (status_code response =? 200)%Z then
        match json response with
        | inl e =>
            if is_Exception e
            then ([HttpGet (api_url org repo endpoint) headers; ResponseJson;
                   Stderr (diag_api_exception endpoint (exn_str e))], Returned (false, PyNone))
            else ([HttpGet (api_url org repo endpoint) headers; ResponseJson], Raised e)
        | inr body =>
            ([HttpGet (api_url org repo endpoint) headers; ResponseJson], Returned (true, body))
        end
      else if (status_code response =? 404)%Z then
        ([HttpGet (api_url org repo endpoint) headers; Stderr (diag_api_not_found endpoint)],
         Returned (false, PyNone))
      else
        ([HttpGet (api_url org repo endpoint) headers;
          Stderr (diag_api_status endpoint (status_code response))], Returned (false, PyNone))
  end.
Proof.
  unfold _call_github_api, requests.get, requests.response_json.
  fold (api_url org repo endpoint).
  destruct (server w (api_url org repo endpoint) headers) as [e | response]; run_step.
  - by destruct (is_Exception e).
  - destruct (status_code response =? 200)%Z.
    + destruct (json response) as [e | body]; run_step; [by destruct (is_Exception e) | done].
    + by destruct (status_code response =? 404)%Z.
Qed.

(** Every way the decoding of lines 56-61 can go. *)
Lemma decode_stage_cases body :
  try_except
    (content ← lift (get_method body (py "content") (PyStr []));
     raw ← b64decode content;
     text ← decode_utf_8 raw;
     mret (Some text))
    (fun e => print_stderr (diag_decode (exn_str e));; mret None)
  = match decoded_text body with
    | inr text => (decode_events body, Returned (Some text))
    | inl e => (decode_events body ++ [Stderr (diag_decode (exn_str e))], Returned None)
    end.
Proof.
  unfold decoded_text, decode_events, b64decode, decode_utf_8.
  destruct (get_method body (py "content") (PyStr [])) as [e | content] eqn:Hg; run_step.
  { by rewrite (get_method_raises_Exception _ _ _ _ Hg). }
  destruct (base64.b64decode content) as [e | raw] eqn:H64; run_step.
  { by rewrite (b64decode_raises_Exception _ _ H64). }
  destruct (codecs.utf_8_decode raw) as [e | text] eqn:Hu; run_step; [|done].
  by rewrite (utf_8_decode_at_raises_Exception _ _ _ Hu).
Qed.

(** Every way [_get_license_content] can go, given how the call went. *)
Lemma get_license_content_cases w headers org repo branch :
  _get_license_content w headers org repo branch =
  match _call_github_api w (py "contents/LICENSE?ref=" ++ branch) headers org repo with
  | (t, Raised e) => (t, Raised e)
  | (t, Returned (success, result)) =>
      if negb success || negb (truth result) then (t, Returned None)
      else match decoded_text result with
           | inr text => (t ++ decode_events result, Returned (Some text))
           | inl e => (t ++ decode_events result ++ [Stderr (diag_decode (exn_str e))],
                       Returned None)
           end
  end.
Proof.
  unfold _get_license_content.
  destruct (_call_github_api w _ headers org repo) as [t [[success result] | e]]; [|done].
  run_step. destruct (negb success || negb (truth result)).
  - run_step. by rewrite app_nil_r.
  - fold (diag_decode). change (fun e : exn => _) with
      (fun e : exn => print_stderr (diag_decode (exn_str e));; mret (M:=run) (@None pystr)).
    rewrite decode_stage_cases. by destruct (decoded_text result).
Qed.

(** X6: whatever the network does, [_call_github_api] sends exactly one
    request: to the URL built from organization, repository and endpoint, with
    the headers it was given.  There is no retry. *)
Theorem call_github_api_one_request (w : World) (endpoint : pystr)
    (headers : gmap pystr pystr) (org repo : pystr) :
  requests_of (trace_of (_call_github_api w endpoint headers org repo)) =
  [HttpGet (py "https://api.github.com/repos/" ++ org ++ py "/" ++ repo ++ py "/" ++ endpoint)
     headers].
Proof.
  rewrite call_api_cases. fold (api_url org repo endpoint).
  destruct (server w (api_url org repo endpoint) headers) as [e | response].
  - by destruct (is_Exception e).
  - destruct (status_code response =? 200)%Z.
    + destruct (json response) as [e | body]; [by destruct (is_Exception e) | done].
    + by destruct (status_code response =? 404)%Z.
Qed.

(** X7: [_call_github_api] reports success exactly when the server answers
    200 and the body parses as JSON; the value returned is then that body,
    and nothing is printed. *)
Theorem call_github_api_success_iff (w : World) (endpoint : pystr)
    (headers : gmap pystr pystr) (org repo : pystr) (body : pyvalue) :
  (outcome_of (_call_github_api w endpoint headers org repo) = Returned (true, body)
   <-> exists response,
        server w (api_url org repo endpoint) headers = inr response
        /\ status_code response = 200%Z /\ json response = inr body)
  /\ (outcome_of (_call_github_api w endpoint headers org repo) = Returned (true, body) ->
      trace_of (_call_github_api w endpoint headers org repo)
      = [HttpGet (api_url org repo endpoint) headers; ResponseJson]).
Proof.
  rewrite call_api_cases.
  destruct (server w (api_url org repo endpoint) headers) as [e | response].
  { split; [split|]; [by destruct (is_Exception e) | by intros (? & ? & _)
                     | by destruct (is_Exception e)]. }
  destruct (status_code response =? 200)%Z eqn:H200.
  - apply Z.eqb_eq in H200. destruct (json response) as [e | body'] eqn:Hj.
    + split; [split|]; [by destruct (is_Exception e) | | by destruct (is_Exception e)].
      intros (r & [= <-] & _ & Hr). by rewrite Hj in Hr.
    + split; [split|].
      * intros [= <-]. by exists response.
      * intros (r & [= <-] & _ & Hr). rewrite Hj in Hr. by injection Hr as ->.
      * done.
  - apply Z.eqb_neq in H200. split; [split|].
    + by destruct (status_code response =? 404)%Z.
    + by intros (r & [= <-] & ? & _).
    + by destruct (status_code response =? 404)%Z.
Qed.

(** X8: for a status other than 200 the body is never parsed; the call
    returns [(False, None)] after one diagnostic, which is the "not found"
    hint for 404 and names the status code otherwise. *)
Theorem call_github_api_other_status (w : World) (endpoint : pystr)
    (headers : gmap pystr pystr) (org repo : pystr) (response : Response) :
  server w (api_url org repo endpoint) headers = inr response ->
  status_code response <> 200%Z ->
  _call_github_api w endpoint headers org repo =
  ([HttpGet (api_url org repo endpoint) headers;
    Stderr (if (status_code response =? 404)%Z
            then py "[API 提示] " ++ endpoint
                 ++ py " 资源未找到（404），可能是仓库/文件不存在或分支错误"
            else py "[API 错误] " ++ endpoint ++ py " 状态码："
                 ++ str_int (status_code response) ++ py "，可能是令牌权限不足")],
   Returned (false, PyNone)).
Proof.
  intros Hs H200%Z.eqb_neq. rewrite call_api_cases, Hs, H200.
  by destruct (status_code response =? 404)%Z.
Qed.

Lemma call_github_api_other_status_witness :
  server world_forbidden (api_url (py "octo-org") (py "project-x") license_endpoint)
    (request_headers world_forbidden) = inr {| status_code := 403; json := inr PyNone |}
  /\ 403%Z <> 200%Z
  /\ _call_github_api world_forbidden license_endpoint (request_headers world_forbidden)
       (py "octo-org") (py "project-x") =
     ([HttpGet (api_url (py "octo-org") (py "project-x") license_endpoint)
         (request_headers world_forbidden);
       Stderr (py "[API 错误] " ++ license_endpoint ++ py " 状态码：" ++ py "403"
               ++ py "，可能是令牌权限不足")],
      Returned (false, PyNone)).
Proof.
  assert (403%Z <> 200%Z) as Hne by lia.
  split; [reflexivity|]. split; [exact Hne|].
  exact (call_github_api_other_status world_forbidden license_endpoint
           (request_headers world_forbidden) (py "octo-org") (py "project-x")
           {| status_code := 403; json := inr PyNone |} eq_refl Hne).
Defined.

(** X9: the only exceptions that leave [_call_github_api] are those that do
    not derive from [Exception] (a keyboard interrupt), raised by the request
    or by the parsing of the response; no diagnostic is printed for them. *)
Theorem call_github_api_propagates_only_interrupts (w : World) (endpoint : pystr)
    (headers : gmap pystr pystr) (org repo : pystr) (e : exn) :
  outcome_of (_call_github_api w endpoint headers org repo) = Raised e ->
  is_Exception e = false
  /\ transport_failure w (api_url org repo endpoint) headers e
  /\ stderr_of (trace_of (_call_github_api w endpoint headers org repo)) = [].
Proof.
  rewrite call_api_cases.
  destruct (server w (api_url org repo endpoint) headers) as [e' | response] eqn:Hs.
  - destruct (is_Exception e') eqn:He; [done|]. intros [= <-].
    split_and!; [done | by constructor | done].
  - destruct (status_code response =? 200)%Z eqn:H200.
    + apply Z.eqb_eq in H200. destruct (json response) as [e' | body] eqn:Hj; [|done].
      destruct (is_Exception e') eqn:He; [done|]. intros [= <-].
      split_and!; [done | by econstructor 2 | done].
    + by destruct (status_code response =? 404)%Z.
Qed.

Lemma call_github_api_propagates_only_interrupts_witness :
  outcome_of (_call_github_api world_interrupted license_endpoint
                (request_headers world_interrupted) (py "octo-org") (py "project-x"))
  = Raised (Exn KeyboardInterrupt [])
  /\ is_Exception (Exn KeyboardInterrupt []) = false
  /\ transport_failure world_interrupted
       (api_url (py "octo-org") (py "project-x") license_endpoint)
       (request_headers world_interrupted) (Exn KeyboardInterrupt [])
  /\ stderr_of (trace_of (_call_github_api world_interrupted license_endpoint
                (request_headers world_interrupted) (py "octo-org") (py "project-x"))) = [].
Proof.
  assert (outcome_of (_call_github_api world_interrupted license_endpoint
                (request_headers world_interrupted) (py "octo-org") (py "project-x"))
          = Raised (Exn KeyboardInterrupt [])) as H by reflexivity.
  split; [exact H|].
  exact (call_github_api_propagates_only_interrupts world_interrupted license_endpoint
           (request_headers world_interrupted) (py "octo-org") (py "project-x") _ H).
Defined.

Lemma stderr_of_decode_events body : stderr_of (decode_events body) = [].
Proof. unfold decode_events. by repeat case_match. Qed.

Lemma requests_of_decode_events body : requests_of (decode_events body) = [].
Proof. unfold decode_events. by repeat case_match. Qed.

Lemma requests_of_app t1 t2 : requests_of (t1 ++ t2) = requests_of t1 ++ requests_of t2.
Proof. apply List.filter_app. Qed.

(** X10: on a 200 response with a JSON body that counts as true,
    [_get_license_content] returns the text that the body's [content] field
    decodes to (base64, then UTF-8); if any decoding step fails it returns
    [None] after one diagnostic that carries the exception's message. *)
Theorem get_license_content_decodes (w : World) (headers : gmap pystr pystr)
    (org repo branch : pystr) (response : Response) (body : pyvalue) :
  server w (api_url org repo (py "contents/LICENSE?ref=" ++ branch)) headers = inr response ->
  status_code response = 200%Z -> json response = inr body -> truth body = true ->
  outcome_of (_get_license_content w headers org repo branch)
  = Returned (match decoded_text body with inr text => Some text | inl _ => None end)
  /\ stderr_of (trace_of (_get_license_content w headers org repo branch))
     = match decoded_text body with
       | inr _ => []
       | inl e => [py "[文件解码错误] LICENSE：" ++ exn_str e ++ py "，可能是文件编码非 UTF-8"]
       end.
Proof.
  intros Hs H200%Z.eqb_eq Hj Hb.
  rewrite get_license_content_cases, call_api_cases, Hs, H200, Hj, Hb. cbn [negb orb].
  destruct (decoded_text body) as [e | text]; cbn [outcome_of trace_of fst snd].
  - split; [done|]. by rewrite !stderr_of_app, stderr_of_decode_events.
  - split; [done|]. by rewrite !stderr_of_app, stderr_of_decode_events.
Qed.

Lemma get_license_content_decodes_witness :
  server world_mit (api_url (py "octo-org") (py "project-x") (py "contents/LICENSE?ref=" ++ py "main"))
    (request_headers world_mit)
  = inr {| status_code := 200;
           json := inr (PyDict (<[ py "content" := PyStr (base64.b2a_base64 EXPECTED_MIT_CONTENT) ]>
                                  (<[ py "name" := PyStr (py "LICENSE") ]> ∅))) |}
  /\ outcome_of (_get_license_content world_mit (request_headers world_mit)
                   (py "octo-org") (py "project-x") (py "main"))
     = Returned (Some EXPECTED_MIT_CONTENT)
  /\ stderr_of (trace_of (_get_license_content world_mit (request_headers world_mit)
                   (py "octo-org") (py "project-x") (py "main"))) = [].
Proof.
  assert (server world_mit
            (api_url (py "octo-org") (py "project-x") (py "contents/LICENSE?ref=" ++ py "main"))
            (request_headers world_mit)
          = inr {| status_code := 200;
                   json := inr (PyDict (<[ py "content" := PyStr (base64.b2a_base64 EXPECTED_MIT_CONTENT) ]>
                                          (<[ py "name" := PyStr (py "LICENSE") ]> ∅))) |}) as Hs
    by (vm_compute; reflexivity).
  split; [exact Hs|].
  assert (truth (PyDict (<[ py "content" := PyStr (base64.b2a_base64 EXPECTED_MIT_CONTENT) ]>
                           (<[ py "name" := PyStr (py "LICENSE") ]> ∅))) = true) as Hb
    by (vm_compute; reflexivity).
  assert (decoded_text (PyDict (<[ py "content" := PyStr (base64.b2a_base64 EXPECTED_MIT_CONTENT) ]>
                           (<[ py "name" := PyStr (py "LICENSE") ]> ∅)))
          = inr EXPECTED_MIT_CONTENT) as Hd by (vm_compute; reflexivity).
  pose proof (get_license_content_decodes world_mit (request_headers world_mit)
                (py "octo-org") (py "project-x") (py "main") _ _ Hs eq_refl eq_refl Hb) as H.
  rewrite Hd in H. exact H.
Defined.

(** X11: a 200 response whose JSON body counts as false (an empty object or
    list, [null], zero, an empty string, [false]) gives [None] silently:
    nothing is decoded and no diagnostic is printed by the fetcher. *)
Theorem get_license_content_falsy_body (w : World) (headers : gmap pystr pystr)
    (org repo branch : pystr) (response : Response) (body : pyvalue) :
  server w (api_url org repo (py "contents/LICENSE?ref=" ++ branch)) headers = inr response ->
  status_code response = 200%Z -> json response = inr body -> truth body = false ->
  _get_license_content w headers org repo branch =
  ([HttpGet (api_url org repo (py "contents/LICENSE?ref=" ++ branch)) headers; ResponseJson],
   Returned None).
Proof.
  intros Hs H200%Z.eqb_eq Hj Hb.
  by rewrite get_license_content_cases, call_api_cases, Hs, H200, Hj, Hb.
Qed.

Lemma get_license_content_falsy_body_witness :
  truth (PyDict ∅) = false
  /\ _get_license_content world_empty_object (request_headers world_empty_object)
       (py "octo-org") (py "project-x") (py "main") =
     ([HttpGet (api_url (py "octo-org") (py "project-x") (py "contents/LICENSE?ref=" ++ py "main"))
         (request_headers world_empty_object); ResponseJson],
      Returned None).
Proof.
  assert (truth (PyDict ∅) = false) as Hb by reflexivity.
  split; [exact Hb|].
  exact (get_license_content_falsy_body world_empty_object (request_headers world_empty_object)
           (py "octo-org") (py "project-x") (py "main")
           {| status_code := 200; json := inr (PyDict ∅) |} (PyDict ∅)
           eq_refl eq_refl eq_refl Hb).
Defined.

(** X12: whatever the network and the file are, [_get_license_content] sends
    exactly one request, for [contents/LICENSE] at the branch given as [ref],
    and lets no exception deriving from [Exception] escape: decoding failures
    of every kind end in a [None] result. *)
Theorem get_license_content_one_request_no_Exception (w : World)
    (headers : gmap pystr pystr) (org repo branch : pystr) :
  requests_of (trace_of (_get_license_content w headers org repo branch)) =
  [HttpGet (py "https://api.github.com/repos/" ++ org ++ py "/" ++ repo ++ py "/"
            ++ py "contents/LICENSE?ref=" ++ branch) headers]
  /\ forall e, outcome_of (_get_license_content w headers org repo branch) = Raised e ->
               is_Exception e = false.
Proof.
  rewrite get_license_content_cases, call_api_cases.
  fold (api_url org repo (py "contents/LICENSE?ref=" ++ branch)).
  destruct (server w _ headers) as [e | response].
  { destruct (is_Exception e) eqn:He; split; try done. by intros e' [= <-]. }
  destruct (status_code response =? 200)%Z.
  - destruct (json response) as [e | body].
    { destruct (is_Exception e) eqn:He; split; try done. by intros e' [= <-]. }
    cbn [negb orb]. destruct (truth body); cbn [negb]; [|done].
    destruct (decoded_text body); cbn [trace_of outcome_of fst snd];
      rewrite !requests_of_app, requests_of_decode_events; done.
  - by destruct (status_code response =? 404)%Z.
Qed.

Lemma fetch_cases w :
  fetch w =
  match answer w with
  | inl e =>
      if is_Exception e
      then ([HttpGet (license_url w) (request_headers w);
             Stderr (diag_api_exception license_endpoint (exn_str e))], Returned None)
      else ([HttpGet (license_url w) (request_headers w)], Raised e)
  | inr response =>
      if (status_code response =? 200)%Z then
        match json response with
        | inl e =>
            if is_Exception e
            then ([HttpGet (license_url w) (request_headers w); ResponseJson;
                   Stderr (diag_api_exception license_endpoint (exn_str e))], Returned None)
            else ([HttpGet (license_url w) (request_headers w); ResponseJson], Raised e)
        | inr body =>
            if truth body then
              match decoded_text body with
              | inr text =>
                  ([HttpGet (license_url w) (request_headers w); ResponseJson]
                     ++ decode_events body, Returned (Some text))
              | inl e =>
                  ([HttpGet (license_url w) (request_headers w); ResponseJson]
                     ++ decode_events body ++ [Stderr (diag_decode (exn_str e))],
                   Returned None)
              end
            else ([HttpGet (license_url w) (request_headers w); ResponseJson], Returned None)
        end
      else if (status_code response =? 404)%Z then
        ([HttpGet (license_url w) (request_headers w);
          Stderr (diag_api_not_found license_endpoint)], Returned None)
      else
        ([HttpGet (license_url w) (request_headers w);
          Stderr (diag_api_status license_endpoint (status_code response))], Returned None)
  end.
Proof.
  unfold fetch, answer, license_url.
  rewrite get_license_content_cases, call_api_cases. fold license_endpoint.
  destruct (server w _ _) as [e | response]; [by destruct (is_Exception e)|].
  destruct (status_code response =? 200)%Z.
  - destruct (json response) as [e | body]; [by destruct (is_Exception e)|].
    cbn [negb orb]. destruct (truth body); cbn [negb]; [|done].
    by destruct (decoded_text body).
  - by destruct (status_code response =? 404)%Z.
Qed.

Lemma fetch_some_silent w t content :
  fetch w = (t, Returned (Some content)) -> stderr_of t = [].
Proof.
  rewrite fetch_cases. repeat case_match; intros [= <- ?]; try done.
  apply stderr_of_decode_events.
Qed.

(** * The check as a whole *)

(** ** The script as shipped *)

(** Line 144 does not compile, so no call of the function runs a statement
    of it. *)
Lemma verify_license_compliance_shipped w :
  verify_license_compliance w = ([], Raised line_144_error).
Proof. reflexivity. Qed.

(** Every run of the script is the report of that error, with status 1. *)
Lemma main_shipped w : main w = ([Traceback line_144_error], Exit 1).
Proof. reflexivity. Qed.

Example run_mit : main world_mit = ([Traceback line_144_error], Exit 1).
Proof. reflexivity. Qed.

Example run_unconfigured : main world_unconfigured = ([Traceback line_144_error], Exit 1).
Proof. reflexivity. Qed.

Example run_offline : main world_offline = ([Traceback line_144_error], Exit 1).
Proof. reflexivity. Qed.

(** ** The statements of the function *)

Lemma fails_with_bind {A : Type} diagnostic (m : run A) (k : A -> run bool) t a :
  m = (t, Returned a) -> stderr_of t = [] ->
  fails_with diagnostic (k a) -> fails_with diagnostic (m ≫= k).
Proof.
  intros -> Ht. unfold fails_with, mbind, run_bind.
  destruct (k a) as [t' o]. cbn [outcome_of trace_of fst snd].
  by rewrite stderr_of_app, Ht.
Qed.

(** A [print] to the standard output ahead of a failing check leaves it
    failing in the same way, or raises. *)
Lemma fails_with_print diagnostic w text (k : run bool) :
  fails_with diagnostic k -> fails_with diagnostic (print w text;; k).
Proof.
  intros Hk. unfold print. destruct (stdout_write w text) as [e|].
  - right. by exists e.
  - by eapply fails_with_bind.
Qed.

Section body_lemmas.
Context (line_144 : run unit) (w : World).

Lemma body_unconfigured :
  configured w = false ->
  verify_license_compliance_body line_144 w =
  ([LoadDotenv (py ".mcp_env");
    Stderr (if truth_opt (github_token w) then diag_missing_org else diag_missing_token)],
   Returned false).
Proof.
  unfold configured. intros H.
  unfold verify_license_compliance_body, load_dotenv.
  change (os_environ w ∪ dotenv_values w) with (environ w). run_step.
  change (environ w !! py "MCP_GITHUB_TOKEN") with (github_token w).
  change (environ w !! py "GITHUB_EVAL_ORG") with (github_org w).
  destruct (truth_opt (github_token w)); simpl in H; [|done].
  by rewrite H.
Qed.

Lemma body_mismatch t content :
  configured w = true -> fetch w = (t, Returned (Some content)) ->
  truthy content = true ->
  clean_content content <> clean_content EXPECTED_MIT_CONTENT ->
  fails_with [diag_mismatch; diag_expected_clause; diag_actual_clause (clean_content content)]
    (verify_license_compliance_body line_144 w).
Proof.
  intros H Hf Hc Hne. pose proof (fetch_some_silent w t content Hf) as Hsilent.
  destruct (configured_settings w H) as (token & org & Et & Eo & Htok & Horg).
  unfold fetch, request_headers in Hf. rewrite Et, Eo in Hf.
  cbn [default from_option id] in Hf.
  unfold verify_license_compliance_body.
  eapply fails_with_bind; [reflexivity | reflexivity |].
  change (os_environ w ∪ dotenv_values w) with (environ w).
  change (environ w !! py "MCP_GITHUB_TOKEN") with (github_token w).
  change (environ w !! py "GITHUB_EVAL_ORG") with (github_org w).
  rewrite Et, Eo. cbn [truth_opt default from_option id]. rewrite Htok, Horg. cbn [negb].
  do 5 apply fails_with_print.
  eapply fails_with_bind; [exact Hf | exact Hsilent |].
  cbn [truth_opt default from_option id]. rewrite Hc. cbn [negb].
  do 2 apply fails_with_print.
  eapply fails_with_bind; [reflexivity | reflexivity |].
  eapply fails_with_bind; [reflexivity | reflexivity |].
  rewrite bool_decide_eq_false_2 by done. cbn [negb].
  left. split; reflexivity.
Qed.

Lemma body_no_content t content :
  configured w = true -> fetch w = (t, Returned content) -> truth_opt content = false ->
  fails_with (stderr_of t ++ [diag_not_found]) (verify_license_compliance_body line_144 w).
Proof.
  intros H Hf Hc.
  destruct (configured_settings w H) as (token & org & Et & Eo & Htok & Horg).
  unfold fetch, request_headers in Hf. rewrite Et, Eo in Hf.
  cbn [default from_option id] in Hf.
  unfold verify_license_compliance_body.
  eapply fails_with_bind; [reflexivity | reflexivity |].
  change (os_environ w ∪ dotenv_values w) with (environ w).
  change (environ w !! py "MCP_GITHUB_TOKEN") with (github_token w).
  change (environ w !! py "GITHUB_EVAL_ORG") with (github_org w).
  rewrite Et, Eo. cbn [truth_opt default from_option id]. rewrite Htok, Horg. cbn [negb].
  do 5 apply fails_with_print.
  rewrite Hf. left. unfold mbind, run_bind, print_stderr, emit, mret, run_ret.
  rewrite Hc. cbn [negb app outcome_of trace_of fst snd].
  split; [reflexivity|]. by rewrite stderr_of_app.
Qed.
End body_lemmas.

(** The statements at work, whatever line 144 is taken to be. *)
Example body_unconfigured_sample line_144 :
  verify_license_compliance_body line_144 world_unconfigured
  = ([LoadDotenv (py ".mcp_env"); Stderr diag_missing_token], Returned false).
Proof. vm_compute. reflexivity. Qed.

Example body_other_license_sample line_144 :
  outcome_of (verify_license_compliance_body line_144 world_other_license) = Returned false
  /\ stderr_of (trace_of (verify_license_compliance_body line_144 world_other_license))
     = [diag_mismatch; diag_expected_clause;
        py "实际核心条款（示例）：Apache License" ++ LF ++ py "Version 2.0..."].
Proof. split; vm_compute; reflexivity. Qed.

(** On an ASCII terminal the statements end at line 108, before the
    request. *)
Example body_on_ascii_terminal line_144 :
  verify_license_compliance_body line_144 world_ascii_terminal
  = ([LoadDotenv (py ".mcp_env"); Stdout (str_mul (py "=") 60)],
     Raised (Exn UnicodeEncodeError
               (py "'ascii' codec can't encode characters in position 0-3: ordinal not in range(128)"))).
Proof. vm_compute. reflexivity. Qed.

(** ** The claims about the checker *)

(** C1: for every fetched content whose normalized form equals the
    normalized canonical template, the checker should print the success
    summary, return true and the process should exit with status 0.  The
    code does none of it: line 144 does not compile, so the function prints
    nothing (no summary) and a call ends with [SyntaxError] instead of
    returning true; the process prints the report of that error only and
    exits with status 1. *)
Theorem matching_content_raises (w : World) (t : list event) (content : pystr) :
  configured w = true ->
  fetch w = (t, Returned (Some content)) ->
  clean_content content = clean_content EXPECTED_MIT_CONTENT ->
  trace_of (verify_license_compliance w) = []
  /\ outcome_of (verify_license_compliance w)
     = Raised (Exn SyntaxError (py "f-string: invalid syntax. Perhaps you forgot a comma?"))
  /\ outcome_of (verify_license_compliance w) <> Returned true
  /\ snd (main w) = Exit 1
  /\ fst (main w)
     = [Traceback (Exn SyntaxError (py "f-string: invalid syntax. Perhaps you forgot a comma?"))].
Proof.
  intros _ _ _. rewrite verify_license_compliance_shipped, main_shipped. by split_and!.
Qed.

Lemma matching_content_raises_witness :
  configured world_mit = true
  /\ fetch world_mit =
     ([HttpGet sample_url (request_headers world_mit); ResponseJson;
       B64Decode (PyStr (base64.b2a_base64 EXPECTED_MIT_CONTENT));
       BytesDecode EXPECTED_MIT_CONTENT], Returned (Some EXPECTED_MIT_CONTENT))
  /\ clean_content EXPECTED_MIT_CONTENT = clean_content EXPECTED_MIT_CONTENT
  /\ outcome_of (verify_license_compliance world_mit) <> Returned true
  /\ snd (main world_mit) = Exit 1.
Proof.
  assert (configured world_mit = true) as H by (vm_compute; reflexivity).
  assert (fetch world_mit =
          ([HttpGet sample_url (request_headers world_mit); ResponseJson;
            B64Decode (PyStr (base64.b2a_base64 EXPECTED_MIT_CONTENT));
            BytesDecode EXPECTED_MIT_CONTENT], Returned (Some EXPECTED_MIT_CONTENT))) as Hf
    by (vm_compute; reflexivity).
  split; [exact H|]. split; [exact Hf|]. split; [reflexivity|].
  pose proof (matching_content_raises world_mit _ _ H Hf eq_refl) as (_ & _ & Hne & Hexit & _).
  exact (conj Hne Hexit).
Defined.

(** C5: in every configuration in which the credential token or the
    organization setting is absent or empty, the checker should return false
    without sending a request.  No request is sent indeed, but nothing is
    returned either: the guards of lines 93-98 never run, a call ends with
    line 144's [SyntaxError], and the process prints the report of that
    error only. *)
Theorem unconfigured_ends_in_syntax_error (w : World) :
  truth_opt (github_token w) = false \/ truth_opt (github_org w) = false ->
  outcome_of (verify_license_compliance w) = Raised line_144_error
  /\ outcome_of (verify_license_compliance w) <> Returned false
  /\ Forall (fun ev => is_request ev = false) (fst (main w))
  /\ main w = ([Traceback line_144_error], Exit 1).
Proof.
  intros _. rewrite verify_license_compliance_shipped, main_shipped.
  split_and!; [done | done | by repeat constructor | done].
Qed.

Lemma unconfigured_ends_in_syntax_error_witness :
  (truth_opt (github_token world_unconfigured) = false
   \/ truth_opt (github_org world_unconfigured) = false)
  /\ outcome_of (verify_license_compliance world_unconfigured) <> Returned false
  /\ main world_unconfigured = ([Traceback line_144_error], Exit 1).
Proof.
  assert (truth_opt (github_token world_unconfigured) = false
          \/ truth_opt (github_org world_unconfigured) = false) as H
    by (left; vm_compute; reflexivity).
  split; [exact H|].
  pose proof (unconfigured_ends_in_syntax_error world_unconfigured H) as (_ & Hne & _ & Hmain).
  exact (conj Hne Hmain).
Defined.







(** C9: for every fetch outcome other than a 200 response with a body (404,
    another status, or an exception of the transport), the checker should go
    straight to a false result, without decoding or normalizing anything.
    Nothing is decoded or normalized indeed, but there is no false result:
    the fetch of line 114 never runs, a call ends with line 144's
    [SyntaxError], and the process prints the report of that error only. *)
Theorem failed_fetch_ends_in_syntax_error (w : World) :
  configured w = true -> fetch_fails w = true ->
  outcome_of (verify_license_compliance w) = Raised line_144_error
  /\ outcome_of (verify_license_compliance w) <> Returned false
  /\ Forall (fun ev => is_decode_or_normalize ev = false) (fst (main w))
  /\ main w = ([Traceback line_144_error], Exit 1).
Proof.
  intros _ _. rewrite verify_license_compliance_shipped, main_shipped.
  split_and!; [done | done | by repeat constructor | done].
Qed.

Lemma failed_fetch_ends_in_syntax_error_witness :
  configured world_offline = true /\ fetch_fails world_offline = true
  /\ outcome_of (verify_license_compliance world_offline) <> Returned false
  /\ main world_offline = ([Traceback line_144_error], Exit 1).
Proof.
  assert (configured world_offline = true) as H by (vm_compute; reflexivity).
  assert (fetch_fails world_offline = true) as Hn by (vm_compute; reflexivity).
  split; [exact H|]. split; [exact Hn|].
  pose proof (failed_fetch_ends_in_syntax_error world_offline H Hn) as (_ & Hne & _ & Hmain).
  exact (conj Hne Hmain).
Defined.

(** C10: when the fetch gets a 200 response but the decoded file content is
    the empty string, or the JSON object has no [content] field, the checker
    should write the "not found" diagnostic and return false.  It does
    neither: the guard of line 115 never runs, a call ends with line 144's
    [SyntaxError], and the error stream gets the report of that error
    only. *)
Theorem empty_content_ends_in_syntax_error (w : World) (response : Response)
    (body : pyvalue) :
  configured w = true ->
  answer w = inr response -> status_code response = 200%Z -> json response = inr body ->
  empty_file body ->
  outcome_of (verify_license_compliance w) = Raised line_144_error
  /\ outcome_of (verify_license_compliance w) <> Returned false
  /\ ~ In diag_not_found (stderr_of (fst (main w)))
  /\ main w = ([Traceback line_144_error], Exit 1).
Proof.
  intros _ _ _ _ _. rewrite verify_license_compliance_shipped, main_shipped.
  split_and!; [done | done | intros [] | done].
Qed.

Lemma empty_content_ends_in_syntax_error_witness :
  configured world_empty_license = true
  /\ answer world_empty_license
     = inr {| status_code := 200;
              json := inr (PyDict (<[ py "content" := PyStr [] ]>
                                     (<[ py "name" := PyStr (py "LICENSE") ]> ∅))) |}
  /\ empty_file (PyDict (<[ py "content" := PyStr [] ]> (<[ py "name" := PyStr (py "LICENSE") ]> ∅)))
  /\ outcome_of (verify_license_compliance world_empty_license) <> Returned false
  /\ ~ In diag_not_found (stderr_of (fst (main world_empty_license))).
Proof.
  assert (configured world_empty_license = true) as H by (vm_compute; reflexivity).
  assert (answer world_empty_license =
          inr {| status_code := 200;
                 json := inr (PyDict (<[ py "content" := PyStr [] ]>
                                        (<[ py "name" := PyStr (py "LICENSE") ]> ∅))) |}) as Ha
    by (vm_compute; reflexivity).
  assert (empty_file (PyDict (<[ py "content" := PyStr [] ]>
                                (<[ py "name" := PyStr (py "LICENSE") ]> ∅)))) as He
    by (apply (decodes_to_empty _ (PyStr []) []); vm_compute; reflexivity).
  split; [exact H|]. split; [exact Ha|]. split; [exact He|].
  pose proof (empty_content_ends_in_syntax_error world_empty_license _ _ H Ha eq_refl eq_refl He)
    as (_ & Hne & Hnot & _).
  exact (conj Hne Hnot).
Defined.

(** X13: [verify_license_compliance] never returns true, and the process
    never exits with status 0: its exit status is 1, unless the run is
    interrupted.  (As shipped, every run ends with line 144's exception and
    exit status 1.) *)
Theorem verify_never_true (w : World) :
  outcome_of (verify_license_compliance w) <> Returned true
  /\ snd (main w) <> Exit 0
  /\ (snd (main w) = Exit 1 \/ snd (main w) = Interrupted).
Proof.
  rewrite verify_license_compliance_shipped, main_shipped. split_and!; [done | done | by left].
Qed.





(** * The decoding of the content field *)

Section base64_lemmas.
Local Open Scope N_scope.

Lemma all_below_spec n P a :
  all_below n P = true -> a < N.of_nat n -> P a = true.
Proof.
  unfold all_below. rewrite forallb_forall. intros H Ha. apply H.
  apply in_map_iff. exists (N.to_nat a). split; [lia|]. apply in_seq. lia.
Qed.

Lemma alphabet_value v :
  v < 64 ->
  base64.table_a2b_base64 (base64.alphabet v) = Some v
  /\ (base64.alphabet v =? base64.BASE64_PAD) = false
  /\ (base64.alphabet v <? 128) = true.
Proof.
  intros Hv.
  assert (all_below 64 (fun v =>
            bool_decide (base64.table_a2b_base64 (base64.alphabet v) = Some v)
            && negb (base64.alphabet v =? base64.BASE64_PAD)
            && (base64.alphabet v <? 128)) = true) as H by (vm_compute; reflexivity).
  apply (all_below_spec 64 _ v) in H; [|done].
  apply andb_true_iff in H as [[H1%bool_decide_eq_true H2%negb_true_iff]%andb_true_iff H3].
  done.
Qed.

(** The four characters that encode three bytes, and the bytes they decode
    to; each identity is checked on all values of the bytes it mentions. *)
Lemma sextets a b :
  a < 256 -> b < 256 ->
  N.shiftr a 2 < 64
  /\ N.lor (N.shiftl (N.land a 3) 4) (N.shiftr b 4) < 64
  /\ N.shiftl (N.land a 3) 4 < 64
  /\ N.lor (N.shiftl (N.land a 15) 2) (N.shiftr b 6) < 64
  /\ N.shiftl (N.land a 15) 2 < 64
  /\ N.land a 63 < 64.
Proof.
  intros Ha Hb.
  assert (all_below 256 (fun a => all_below 256 (fun b =>
            (N.shiftr a 2 <? 64)
            && (N.lor (N.shiftl (N.land a 3) 4) (N.shiftr b 4) <? 64)
            && (N.shiftl (N.land a 3) 4 <? 64)
            && (N.lor (N.shiftl (N.land a 15) 2) (N.shiftr b 6) <? 64)
            && (N.shiftl (N.land a 15) 2 <? 64)
            && (N.land a 63 <? 64))) = true) as H by (vm_compute; reflexivity).
  apply (all_below_spec 256 _ a) in H; [|done].
  apply (all_below_spec 256 _ b) in H; [|done].
  rewrite !andb_true_iff, !N.ltb_lt in H. tauto.
Qed.

Lemma first_byte a b :
  a < 256 -> b < 256 ->
  N.lor (N.shiftl (N.shiftr a 2) 2)
        (N.shiftr (N.lor (N.shiftl (N.land a 3) 4) (N.shiftr b 4)) 4) = a
  /\ N.lor (N.shiftl (N.shiftr a 2) 2) (N.shiftr (N.shiftl (N.land a 3) 4) 4) = a.
Proof.
  intros Ha Hb.
  assert (all_below 256 (fun a => all_below 256 (fun b =>
            (N.lor (N.shiftl (N.shiftr a 2) 2)
               (N.shiftr (N.lor (N.shiftl (N.land a 3) 4) (N.shiftr b 4)) 4) =? a)
            && (N.lor (N.shiftl (N.shiftr a 2) 2) (N.shiftr (N.shiftl (N.land a 3) 4) 4) =? a)))
          = true) as H by (vm_compute; reflexivity).
  apply (all_below_spec 256 _ a) in H; [|done].
  apply (all_below_spec 256 _ b) in H; [|done].
  rewrite !andb_true_iff, !N.eqb_eq in H. tauto.
Qed.

Lemma second_byte a b c :
  a < 256 -> b < 256 -> c < 256 ->
  N.lor (N.shiftl (N.land (N.lor (N.shiftl (N.land a 3) 4) (N.shiftr b 4)) 15) 4)
        (N.shiftr (N.lor (N.shiftl (N.land b 15) 2) (N.shiftr c 6)) 2) = b
  /\ N.lor (N.shiftl (N.land (N.lor (N.shiftl (N.land a 3) 4) (N.shiftr b 4)) 15) 4)
           (N.shiftr (N.shiftl (N.land b 15) 2) 2) = b.
Proof.
  intros Ha Hb Hc.
  assert (all_below 256 (fun a => all_below 256 (fun b =>
            N.land (N.lor (N.shiftl (N.land a 3) 4) (N.shiftr b 4)) 15 =? N.shiftr b 4))
          = true) as H1 by (vm_compute; reflexivity).
  apply (all_below_spec 256 _ a) in H1; [|done].
  apply (all_below_spec 256 _ b) in H1; [|done]. apply N.eqb_eq in H1. rewrite H1.
  assert (all_below 256 (fun b => all_below 256 (fun c =>
            (N.lor (N.shiftl (N.shiftr b 4) 4)
               (N.shiftr (N.lor (N.shiftl (N.land b 15) 2) (N.shiftr c 6)) 2) =? b)
            && (N.lor (N.shiftl (N.shiftr b 4) 4) (N.shiftr (N.shiftl (N.land b 15) 2) 2) =? b)))
          = true) as H2 by (vm_compute; reflexivity).
  apply (all_below_spec 256 _ b) in H2; [|done].
  apply (all_below_spec 256 _ c) in H2; [|done].
  rewrite !andb_true_iff, !N.eqb_eq in H2. tauto.
Qed.

Lemma third_byte b c :
  b < 256 -> c < 256 ->
  N.lor (N.shiftl (N.land (N.lor (N.shiftl (N.land b 15) 2) (N.shiftr c 6)) 3) 6)
        (N.land c 63) = c.
Proof.
  intros Hb Hc.
  assert (all_below 256 (fun b => all_below 256 (fun c =>
            N.lor (N.shiftl (N.land (N.lor (N.shiftl (N.land b 15) 2) (N.shiftr c 6)) 3) 6)
                  (N.land c 63) =? c)) = true) as H by (vm_compute; reflexivity).
  apply (all_below_spec 256 _ b) in H; [|done].
  apply (all_below_spec 256 _ c) in H; [|done]. by apply N.eqb_eq.
Qed.

Lemma a2b_base64_loop_data quad_pos leftchar pads out v rest :
  v < 64 ->
  base64.a2b_base64_loop quad_pos leftchar pads out (base64.alphabet v :: rest) =
  if quad_pos =? 0 then base64.a2b_base64_loop 1 v 0 out rest
  else if quad_pos =? 1 then
    base64.a2b_base64_loop 2 (N.land v 15) 0
      (out ++ [N.lor (N.shiftl leftchar 2) (N.shiftr v 4)]) rest
  else if quad_pos =? 2 then
    base64.a2b_base64_loop 3 (N.land v 3) 0
      (out ++ [N.lor (N.shiftl leftchar 4) (N.shiftr v 2)]) rest
  else base64.a2b_base64_loop 0 0 0 (out ++ [N.lor (N.shiftl leftchar 6) v]) rest.
Proof.
  intros Hv. destruct (alphabet_value v Hv) as (Ht & Hp & _).
  cbn [base64.a2b_base64_loop]. by rewrite Hp, Ht.
Qed.

Lemma a2b_b2a_base64 raw :
  Forall (fun b => b < 256) raw ->
  forall out, base64.a2b_base64_loop 0 0 0 out (base64.b2a_base64 raw) = inr (out ++ raw).
Proof.
  induction raw as [raw IH] using (induction_ltof1 _ (@length N)). unfold ltof in IH.
  intros Hraw out. destruct raw as [|a [|b [|c raw]]].
  - simpl. by rewrite app_nil_r.
  - inversion Hraw as [|? ? Ha _]; subst.
    destruct (sextets a 0 Ha) as (S1 & _ & S3 & _); [lia|].
    destruct (first_byte a 0 Ha) as (_ & B1); [lia|].
    cbn [base64.b2a_base64].
    rewrite !a2b_base64_loop_data by done. cbn [N.eqb Pos.eqb].
    rewrite B1. reflexivity.
  - inversion Hraw as [|? ? Ha Hraw']; subst. inversion Hraw' as [|? ? Hb _]; subst.
    destruct (sextets a b Ha Hb) as (S1 & S2 & _).
    destruct (sextets b 0 Hb) as (_ & _ & _ & _ & S5 & _); [lia|].
    destruct (first_byte a b Ha Hb) as (B1 & _).
    destruct (second_byte a b 0 Ha Hb) as (_ & B2); [lia|].
    cbn [base64.b2a_base64].
    rewrite !a2b_base64_loop_data by done. cbn [N.eqb Pos.eqb].
    rewrite B1, B2. cbn. by rewrite <- app_assoc.
  - inversion Hraw as [|? ? Ha Hraw']; subst. inversion Hraw' as [|? ? Hb Hraw'']; subst.
    inversion Hraw'' as [|? ? Hc Hrest]; subst.
    destruct (sextets a b Ha Hb) as (S1 & S2 & _).
    destruct (sextets b c Hb Hc) as (_ & _ & _ & S4 & _).
    destruct (sextets c 0 Hc) as (_ & _ & _ & _ & _ & S6); [lia|].
    destruct (first_byte a b Ha Hb) as (B1 & _).
    destruct (second_byte a b c Ha Hb Hc) as (B2 & _).
    pose proof (third_byte b c Hb Hc) as B3.
    cbn [base64.b2a_base64].
    rewrite !a2b_base64_loop_data by done. cbn [N.eqb Pos.eqb].
    rewrite B1, B2, B3. rewrite IH by (simpl; lia || done).
    by rewrite <- !app_assoc.
Qed.

Lemma b2a_base64_ascii raw :
  Forall (fun b => b < 256) raw -> is_ascii (base64.b2a_base64 raw) = true.
Proof.
  induction raw as [raw IH] using (induction_ltof1 _ (@length N)). unfold ltof in IH.
  intros Hraw. destruct raw as [|a [|b [|c raw]]]; [done| | |].
  - inversion Hraw as [|? ? Ha _]; subst.
    destruct (sextets a 0 Ha) as (S1 & _ & S3 & _); [lia|].
    cbn [base64.b2a_base64 is_ascii forallb].
    destruct (alphabet_value _ S1) as (_ & _ & ->).
    destruct (alphabet_value _ S3) as (_ & _ & ->). done.
  - inversion Hraw as [|? ? Ha Hraw']; subst. inversion Hraw' as [|? ? Hb _]; subst.
    destruct (sextets a b Ha Hb) as (S1 & S2 & _).
    destruct (sextets b 0 Hb) as (_ & _ & _ & _ & S5 & _); [lia|].
    cbn [base64.b2a_base64 is_ascii forallb].
    destruct (alphabet_value _ S1) as (_ & _ & ->).
    destruct (alphabet_value _ S2) as (_ & _ & ->).
    destruct (alphabet_value _ S5) as (_ & _ & ->). done.
  - inversion Hraw as [|? ? Ha Hraw']; subst. inversion Hraw' as [|? ? Hb Hraw'']; subst.
    inversion Hraw'' as [|? ? Hc Hrest]; subst.
    destruct (sextets a b Ha Hb) as (S1 & S2 & _).
    destruct (sextets b c Hb Hc) as (_ & _ & _ & S4 & _).
    destruct (sextets c 0 Hc) as (_ & _ & _ & _ & _ & S6); [lia|].
    cbn [base64.b2a_base64 is_ascii forallb].
    destruct (alphabet_value _ S1) as (_ & _ & ->).
    destruct (alphabet_value _ S2) as (_ & _ & ->).
    destruct (alphabet_value _ S4) as (_ & _ & ->).
    destruct (alphabet_value _ S6) as (_ & _ & ->).
    cbn [andb]. apply IH; [simpl; lia | done].
Qed.

Lemma a2b_base64_loop_discard junk :
  forallb discarded junk = true ->
  forall quad_pos leftchar pads out rest,
    base64.a2b_base64_loop quad_pos leftchar pads out (junk ++ rest)
    = base64.a2b_base64_loop quad_pos leftchar pads out rest.
Proof.
  induction junk as [|c junk IH]; [done|].
  cbn [forallb]. intros [Hc Hj]%andb_true_iff quad_pos leftchar pads out rest.
  unfold discarded in Hc. apply andb_true_iff in Hc as [[_ Hp%negb_true_iff]%andb_true_iff Ht].
  cbn [app base64.a2b_base64_loop]. rewrite Hp.
  destruct (base64.table_a2b_base64 c); [done|]. by apply IH.
Qed.

Lemma a2b_base64_loop_ext x r1 r2 :
  (forall quad_pos leftchar pads out,
      base64.a2b_base64_loop quad_pos leftchar pads out r1
      = base64.a2b_base64_loop quad_pos leftchar pads out r2) ->
  forall quad_pos leftchar pads out,
    base64.a2b_base64_loop quad_pos leftchar pads out (x ++ r1)
    = base64.a2b_base64_loop quad_pos leftchar pads out (x ++ r2).
Proof.
  intros H. induction x as [|c x IH]; [done|].
  intros quad_pos leftchar pads out. cbn [app base64.a2b_base64_loop].
  repeat case_match; done.
Qed.

Lemma discarded_ascii junk : forallb discarded junk = true -> is_ascii junk = true.
Proof.
  unfold is_ascii. rewrite !forallb_forall. intros H c Hc.
  specialize (H c Hc). unfold discarded in H.
  by apply andb_true_iff in H as [[H _]%andb_true_iff _].
Qed.

Lemma utf_8_decode_ascii s :
  is_ascii s = true -> codecs.utf_8_decode s = inr s.
Proof.
  unfold codecs.utf_8_decode. generalize 0. induction s as [|c s IH]; [done|].
  cbn [is_ascii forallb]. intros pos [Hc Hs]%andb_true_iff.
  cbn [codecs.utf_8_decode_at]. rewrite Hc. unfold codecs.cons_char.
  by rewrite IH.
Qed.

Lemma ascii_bytes s : is_ascii s = true -> Forall (fun b => b < 256) s.
Proof.
  unfold is_ascii. rewrite forallb_forall, List.Forall_forall.
  intros H c Hc. specialize (H c Hc). apply N.ltb_lt in H. lia.
Qed.
End base64_lemmas.

Lemma b64decode_b2a_base64 text :
  is_ascii text = true ->
  base64.b64decode (PyStr (base64.b2a_base64 text)) = inr text.
Proof.
  intros H. pose proof (ascii_bytes text H) as Hb.
  unfold base64.b64decode, base64.bytes_from_decode_data.
  fold (is_ascii (base64.b2a_base64 text)). rewrite (b2a_base64_ascii text Hb).
  unfold base64.a2b_base64. by rewrite a2b_b2a_base64.
Qed.

(** X18: round trip of the transport encoding: when the server answers 200
    with a JSON object whose [content] field is the base64 encoding of an
    ASCII text, [_get_license_content] returns exactly that text. *)
Theorem get_license_content_round_trip (w : World) (headers : gmap pystr pystr)
    (org repo branch : pystr) (response : Response) (d : gmap pystr pyvalue)
    (text : pystr) :
  server w (api_url org repo (py "contents/LICENSE?ref=" ++ branch)) headers = inr response ->
  status_code response = 200%Z -> json response = inr (PyDict d) ->
  d !! py "content" = Some (PyStr (base64.b2a_base64 text)) ->
  is_ascii text = true ->
  outcome_of (_get_license_content w headers org repo branch) = Returned (Some text).
Proof.
  intros Hs H200%Z.eqb_eq Hj Hd Ha.
  assert (truth (PyDict d) = true) as Hb.
  { simpl. apply negb_true_iff, Nat.eqb_neq. intros Hsize.
    apply map_size_empty_iff in Hsize. subst d. by rewrite lookup_empty in Hd. }
  assert (decoded_text (PyDict d) = inr text) as Ht.
  { unfold decoded_text. cbn [get_method]. rewrite Hd. cbn [default from_option id].
    rewrite (b64decode_b2a_base64 text Ha). by apply utf_8_decode_ascii. }
  rewrite get_license_content_cases, call_api_cases, Hs, H200, Hj, Hb. cbn [negb orb].
  by rewrite Ht.
Qed.

Lemma get_license_content_round_trip_witness :
  server world_mit (api_url (py "octo-org") (py "project-x") (py "contents/LICENSE?ref=" ++ py "main"))
    (request_headers world_mit)
  = inr {| status_code := 200;
           json := inr (PyDict (<[ py "content" := PyStr (base64.b2a_base64 EXPECTED_MIT_CONTENT) ]>
                                  (<[ py "name" := PyStr (py "LICENSE") ]> ∅))) |}
  /\ is_ascii EXPECTED_MIT_CONTENT = true
  /\ outcome_of (_get_license_content world_mit (request_headers world_mit)
                   (py "octo-org") (py "project-x") (py "main"))
     = Returned (Some EXPECTED_MIT_CONTENT).
Proof.
  assert (server world_mit
            (api_url (py "octo-org") (py "project-x") (py "contents/LICENSE?ref=" ++ py "main"))
            (request_headers world_mit)
          = inr {| status_code := 200;
                   json := inr (PyDict (<[ py "content" := PyStr (base64.b2a_base64 EXPECTED_MIT_CONTENT) ]>
                                          (<[ py "name" := PyStr (py "LICENSE") ]> ∅))) |}) as Hs
    by (vm_compute; reflexivity).
  assert (is_ascii EXPECTED_MIT_CONTENT = true) as Ha by (vm_compute; reflexivity).
  split; [exact Hs|]. split; [exact Ha|].
  exact (get_license_content_round_trip world_mit (request_headers world_mit)
           (py "octo-org") (py "project-x") (py "main") _ _ EXPECTED_MIT_CONTENT
           Hs eq_refl eq_refl (lookup_insert_eq _ _ _) Ha).
Defined.

(** X19: ASCII characters outside the base64 alphabet in the [content]
    field, such as the line feeds that break the base64 text into lines, do
    not change what the field decodes to. *)
Theorem decoded_text_ignores_discarded (d : gmap pystr pyvalue) (x junk y : pystr) :
  forallb discarded junk = true ->
  decoded_text (PyDict (<[ py "content" := PyStr (x ++ junk ++ y) ]> d))
  = decoded_text (PyDict (<[ py "content" := PyStr (x ++ y) ]> d)).
Proof.
  intros Hj. unfold decoded_text. cbn [get_method]. rewrite !lookup_insert_eq.
  cbn [default from_option id].
  assert (base64.b64decode (PyStr (x ++ junk ++ y)) = base64.b64decode (PyStr (x ++ y))) as ->;
    [|done].
  unfold base64.b64decode, base64.bytes_from_decode_data.
  rewrite !forallb_app. fold (is_ascii junk). rewrite (discarded_ascii junk Hj).
  cbn [andb]. destruct (forallb _ x && forallb _ y); [|done].
  unfold base64.a2b_base64. apply a2b_base64_loop_ext.
  intros. by apply a2b_base64_loop_discard.
Qed.

Lemma decoded_text_ignores_discarded_witness :
  forallb discarded LF = true
  /\ decoded_text (PyDict (<[ py "content" := PyStr (py "TUlU" ++ LF ++ py "IExpY2Vuc2U=") ]> ∅))
     = decoded_text (PyDict (<[ py "content" := PyStr (py "TUlU" ++ py "IExpY2Vuc2U=") ]> ∅)).
Proof.
  assert (forallb discarded LF = true) as H by reflexivity.
  split; [exact H|].
  exact (decoded_text_ignores_discarded ∅ (py "TUlU") LF (py "IExpY2Vuc2U=") H).
Defined.

(** The template, sent as base64 broken into lines, is fetched as the
    template. *)
Example run_wrapped_content :
  outcome_of (fetch world_mit_wrapped) = Returned (Some EXPECTED_MIT_CONTENT).
Proof. vm_compute. reflexivity. Qed.


(** * Size of the normalized text *)

Section size_lemmas.
Import Spec.

Lemma length_lstrip s : length (lstrip s) <= length s.
Proof.
  induction s as [|c s IH]; simpl; [done|].
  destruct (Py_UNICODE_ISSPACE c); simpl; lia.
Qed.

Lemma length_rstrip s : length (rstrip s) <= length s.
Proof.
  induction s as [|c s IH]; simpl; [done|].
  destruct (rstrip s); [destruct (Py_UNICODE_ISSPACE c)|]; simpl in *; lia.
Qed.

Lemma length_strip s : length (strip s) <= length s.
Proof. unfold strip. pose proof (length_rstrip (lstrip s)). pose proof (length_lstrip s). lia. Qed.

Lemma size_of_split_into_lines s : size_of_lines (split_into_lines s) = S (length s).
Proof.
  unfold size_of_lines. induction s as [|c s IH]; simpl; [done|].
  destruct (Py_UNICODE_ISLINEBREAK c); simpl; [by rewrite IH|].
  destruct (split_into_lines_cons s) as (l & ls & E). rewrite E in *. simpl in *. lia.
Qed.

Lemma size_of_stripped_nonblank ls :
  size_of_lines (stripped_nonblank ls) <= size_of_lines ls.
Proof.
  unfold size_of_lines. induction ls as [|l ls IH]; simpl; [done|].
  pose proof (length_strip l). destruct (truthy (strip l)); simpl; lia.
Qed.

Lemma length_join ks : length (join LF ks) <= pred (size_of_lines ks).
Proof.
  unfold size_of_lines. induction ks as [|k ks IH]; simpl; [done|].
  destruct ks as [|k2 ks]; [simpl; lia|].
  rewrite length_app. change (length (LF ++ ?x)) with (S (length x)).
  simpl in *. lia.
Qed.
End size_lemmas.

(** X20: normalization never makes a text longer. *)
Theorem clean_content_not_longer (s : pystr) :
  length (clean_content s) <= length s.
Proof.
  rewrite clean_content_lines.
  pose proof (length_join (stripped_nonblank (Spec.split_into_lines s))).
  pose proof (size_of_stripped_nonblank (Spec.split_into_lines s)).
  pose proof (size_of_split_into_lines s). lia.
Qed.
